(** * rustico web front end: frame scheduling, frame sink, audio gate and rpc

    A shallow embedding of [public/main_webworkers.js].  The script is a set
    of event handlers that run to completion on one thread and communicate
    through module-level variables; every handler is embedded as a function
    in a small state/exception/log monad over those variables.

    Conventions.
    - The counters are JavaScript numbers that only ever hold integers; they
      are modelled as [Z] (exact below 2^53).
    - [null] is [None].
    - Calls into the browser (worker and audio ports, console, canvas, timers)
      are recorded in an execution log, in program order, together with every
      assignment to a module-level variable. *)

From Stdlib Require Import ZArith Lia List String.
From stdpp Require Import base option list gmap.
Import ListNotations.

Local Open Scope Z_scope.

(** ** JavaScript values carried by rpc replies *)

Module Js.

(** The part of the value universe a structured-clone reply can carry.
    Numbers are kept to integers plus NaN; objects are opaque. *)
Inductive value : Type :=
| Undefined
| Null
| Bool (b : bool)
| Num (n : Z)
| NaN
| Str (s : string)
| Obj (ref : nat).

(** ToBoolean, as used by [if (data.error)]. *)
Definition truthy (v : value) : bool :=
  match v with
  | Undefined | Null | NaN => false
  | Bool b => b
  | Num n => negb (n =? 0)
  | Str s => negb (String.eqb s EmptyString)
  | Obj _ => true
  end.

(** Reading a property: an absent property reads as [undefined]. *)
Definition get_prop (field : option value) : value :=
  match field with
  | Some v => v
  | None => Undefined
  end.

End Js.

(** ** Messages *)

(** Raw pixel bytes and raw samples, as transferred by the worker. *)
Definition image_buffer : Type := list Z.
Definition audio_buffer : Type := list Z.

(** Messages the worker pushes on the main connection ([e.data]). *)
Inductive worker_data : Type :=
| Init
| DeliverFrame (image : image_buffer) (audio : audio_buffer)
| OtherWorkerData (type : string).

(** Messages the audio worklet node sends back ([e.data]). *)
Inductive audio_data : Type :=
| SamplesPlayed (count : Z)
| OtherAudioData (type : string).

(** Messages posted to the worker on the main connection. *)
Inductive worker_request : Type :=
| RequestFrame.

(** ** Module-level state *)

Record globals : Type := Globals {
  g_pending_frames : Z;
  g_frames_since_last_fps_count : Z;
  g_game_pixels : option image_buffer;
  g_audio_samples_buffered : Z;
  (** [g_nes_audio_node]: null until [init_audio_context] has created it;
      the payload names the node. *)
  g_nes_audio_node : option nat
}.

(** The values given by the [let] declarations at load time. *)
Definition initial_globals : globals :=
  {| g_pending_frames := 0;
     g_frames_since_last_fps_count := 0;
     g_game_pixels := None;
     g_audio_samples_buffered := 0;
     g_nes_audio_node := None |}.

(** ** Execution log *)

Inductive effect : Type :=
| Set_g_game_pixels (v : option image_buffer)
| Set_g_pending_frames (v : Z)
| Set_g_frames_since_last_fps_count (v : Z)
| Set_g_audio_samples_buffered (v : Z)
| Set_g_nes_audio_node (node : nat)
| WorkerPostMessage (m : worker_request)
| AudioPostSamples (node : nat) (samples : audio_buffer)
| ConsoleLog (text : string)
| PutImageData (pixels : image_buffer)
| RequestAnimationFrame
| SetFpsCounterText (frames : Z)
| Onready.

Inductive js_error : Type :=
| TypeError (what : string)
| DOMException (what : string).

Inductive outcome (A : Type) : Type :=
| Returned (a : A)
| Thrown (e : js_error).
Arguments Returned {A} a.
Arguments Thrown {A} e.

(** ** The handler monad: state, exceptions, log *)

Definition M (A : Type) : Type := globals -> outcome A * globals * list effect.

Definition ret {A} (a : A) : M A := fun g => (Returned a, g, []).

Definition bind {A B} (m : M A) (k : A -> M B) : M B :=
  fun g =>
    match m g with
    | (Returned a, g1, t1) =>
        match k a g1 with
        | (r, g2, t2) => (r, g2, t1 ++ t2)
        end
    | (Thrown e, g1, t1) => (Thrown e, g1, t1)
    end.

Definition throw {A} (e : js_error) : M A := fun g => (Thrown e, g, []).
Definition read {A} (proj : globals -> A) : M A := fun g => (Returned (proj g), g, []).
Definition emit (e : effect) : M unit := fun g => (Returned tt, g, [e]).

Declare Scope js_scope.
Delimit Scope js_scope with js.
Notation "'let*' x := m 'in' k" := (bind m (fun x => k))
  (at level 10, x name, m at level 100, k at level 200) : js_scope.
Notation "m ;; k" := (bind m (fun _ => k))
  (at level 100, k at level 200, right associativity) : js_scope.

Definition result_of {A} (r : outcome A * globals * list effect) : outcome A := fst (fst r).
Definition state_of {A} (r : outcome A * globals * list effect) : globals := snd (fst r).
Definition log_of {A} (r : outcome A * globals * list effect) : list effect := snd r.

(** Assignments to the module-level variables. *)

Definition assign_g_game_pixels (v : option image_buffer) : M unit :=
  fun g =>
    (Returned tt,
     {| g_pending_frames := g_pending_frames g;
        g_frames_since_last_fps_count := g_frames_since_last_fps_count g;
        g_game_pixels := v;
        g_audio_samples_buffered := g_audio_samples_buffered g;
        g_nes_audio_node := g_nes_audio_node g |},
     [Set_g_game_pixels v]).

Definition assign_g_pending_frames (v : Z) : M unit :=
  fun g =>
    (Returned tt,
     {| g_pending_frames := v;
        g_frames_since_last_fps_count := g_frames_since_last_fps_count g;
        g_game_pixels := g_game_pixels g;
        g_audio_samples_buffered := g_audio_samples_buffered g;
        g_nes_audio_node := g_nes_audio_node g |},
     [Set_g_pending_frames v]).

Definition assign_g_frames_since_last_fps_count (v : Z) : M unit :=
  fun g =>
    (Returned tt,
     {| g_pending_frames := g_pending_frames g;
        g_frames_since_last_fps_count := v;
        g_game_pixels := g_game_pixels g;
        g_audio_samples_buffered := g_audio_samples_buffered g;
        g_nes_audio_node := g_nes_audio_node g |},
     [Set_g_frames_since_last_fps_count v]).

Definition assign_g_audio_samples_buffered (v : Z) : M unit :=
  fun g =>
    (Returned tt,
     {| g_pending_frames := g_pending_frames g;
        g_frames_since_last_fps_count := g_frames_since_last_fps_count g;
        g_game_pixels := g_game_pixels g;
        g_audio_samples_buffered := v;
        g_nes_audio_node := g_nes_audio_node g |},
     [Set_g_audio_samples_buffered v]).

Definition assign_g_nes_audio_node (node : nat) : M unit :=
  fun g =>
    (Returned tt,
     {| g_pending_frames := g_pending_frames g;
        g_frames_since_last_fps_count := g_frames_since_last_fps_count g;
        g_game_pixels := g_game_pixels g;
        g_audio_samples_buffered := g_audio_samples_buffered g;
        g_nes_audio_node := Some node |},
     [Set_g_nes_audio_node node]).

(** [g_nes_audio_node.port.postMessage({type: "samples", samples})]:
    dereferencing the variable while it is still null throws. *)
Definition post_samples (samples : audio_buffer) : M unit :=
  (let* node := read g_nes_audio_node in
   match node with
   | Some n => emit (AudioPostSamples n samples)
   | None => throw (TypeError "g_nes_audio_node is null")
   end)%js.

(** ** Event handlers *)

Open Scope js_scope.

(** Lines 37-42 of [worker.onmessage]: the audio backpressure gate. *)
Definition audio_gate (audio : audio_buffer) : M unit :=
  let* buffered := read g_audio_samples_buffered in
  if buffered <? 8192 then
    post_samples audio ;;
    let* buffered' := read g_audio_samples_buffered in
    assign_g_audio_samples_buffered (buffered' + Z.of_nat (length audio))
  else
    emit (ConsoleLog "Audio overrun; are we going too fast? Samples dropped.").

(** [worker.onmessage].  On ["init"] it calls [onready], the start-up
    sequence (an echo call, audio bring-up, arming of the timers and of the
    render loop); [onready] assigns none of the variables above, so the call is
    kept as one log entry, and the moment its audio bring-up stores the node is
    the event [AudioContextReady] below. *)
Definition worker_onmessage (data : worker_data) : M unit :=
  match data with
  | Init => emit Onready
  | DeliverFrame image audio =>
      assign_g_game_pixels (Some image) ;;
      (let* pending := read g_pending_frames in
       assign_g_pending_frames (pending - 1)) ;;
      (let* frames := read g_frames_since_last_fps_count in
       assign_g_frames_since_last_fps_count (frames + 1)) ;;
      audio_gate audio
  | OtherWorkerData _ => ret tt
  end.

(** [handle_audio_message].  [count] is the integer the audio node reports;
    the subtraction is the exact one as long as the counter, the count and
    their difference are integers a JavaScript number holds exactly (see
    [safe_integer] below). *)
Definition handle_audio_message (data : audio_data) : M unit :=
  match data with
  | SamplesPlayed count =>
      let* buffered := read g_audio_samples_buffered in
      assign_g_audio_samples_buffered (buffered - count)
  | OtherAudioData _ => ret tt
  end.

(** [schedule_frames_at_top_speed]; the function is [async] but contains no
    [await], so its body runs to completion inside the timer callback. *)
Definition schedule_frames_at_top_speed : M unit :=
  let* pending := read g_pending_frames in
  if pending <? 10 then
    emit (WorkerPostMessage RequestFrame) ;;
    let* pending' := read g_pending_frames in
    assign_g_pending_frames (pending' + 1)
  else
    ret tt.

(** [new ImageData(new Uint8ClampedArray(pixels), 256, 240)] rejects a buffer
    that is not 256 x 240 RGBA. *)
Definition frame_bytes : Z := 4 * 256 * 240.

Definition clamp8 (z : Z) : Z := Z.max 0 (Z.min 255 z).

(** [new Uint8ClampedArray(pixels)]: a copy of the same length with every
    element clamped to 0..255. *)
Definition Uint8ClampedArray (pixels : image_buffer) : image_buffer :=
  map clamp8 pixels.

Definition new_ImageData (pixels : image_buffer) : M image_buffer :=
  if Z.of_nat (length (Uint8ClampedArray pixels)) =? frame_bytes
  then ret (Uint8ClampedArray pixels)
  else throw (DOMException "ImageData: wrong buffer length").

(** [renderLoop].  The canvas lookup and [getContext] are taken to succeed;
    [putImageData] is the presentation of the frame. *)
Definition renderLoop : M unit :=
  (let* pixels := read g_game_pixels in
   match pixels with
   | Some buf =>
       let* image_data := new_ImageData buf in
       emit (PutImageData image_data) ;;
       assign_g_game_pixels None
   | None => ret tt
   end) ;;
  emit RequestAnimationFrame.

(** [compute_fps]; the [#fps-counter] element is taken to exist. *)
Definition compute_fps : M unit :=
  let* frames := read g_frames_since_last_fps_count in
  emit (SetFpsCounterText frames) ;;
  assign_g_frames_since_last_fps_count 0.

(** The tail of [init_audio_context]: the node is created, stored in
    [g_nes_audio_node], and [handle_audio_message] becomes its port's
    listener. *)
Definition init_audio_context (node : nat) : M unit :=
  assign_g_nes_audio_node node.

Close Scope js_scope.

(** ** The event loop *)

(** What the browser can deliver to the page. *)
Inductive event : Type :=
| WorkerMessage (data : worker_data)
| AudioMessage (data : audio_data)
| SchedulerTick
| AnimationFrame
| FpsTick
| AudioContextReady (node : nat).

(** The listener run for each event.  The audio port exists, with
    [handle_audio_message] attached, only once the node has been created. *)
Definition dispatch (e : event) : M unit :=
  match e with
  | WorkerMessage data => worker_onmessage data
  | AudioMessage data =>
      fun g =>
        match g_nes_audio_node g with
        | Some _ => handle_audio_message data g
        | None => ret tt g
        end
  | SchedulerTick => schedule_frames_at_top_speed
  | AnimationFrame => renderLoop
  | FpsTick => compute_fps
  | AudioContextReady node => init_audio_context node
  end.

(** Handlers run one after the other; an uncaught exception ends the handler
    that raised it and the loop goes on with the state as it was left. *)
Fixpoint run (g : globals) (evs : list event) : globals * list effect :=
  match evs with
  | [] => (g, [])
  | e :: evs' =>
      match dispatch e g with
      | (_, g1, t1) =>
          match run g1 evs' with
          | (g2, t2) => (g2, t1 ++ t2)
          end
      end
  end.

(** Observations on logs and event sequences. *)

Definition is_request (e : effect) : bool :=
  match e with
  | WorkerPostMessage RequestFrame => true
  | _ => false
  end.

Definition is_delivery (e : event) : bool :=
  match e with
  | WorkerMessage (DeliverFrame _ _) => true
  | _ => false
  end.

Definition is_render (e : event) : bool :=
  match e with
  | AnimationFrame => true
  | _ => false
  end.

Fixpoint count_if {A} (p : A -> bool) (l : list A) : Z :=
  match l with
  | [] => 0
  | x :: l' => (if p x then 1 else 0) + count_if p l'
  end.

(** Frame requests sent to the worker. *)
Definition requests_sent (t : list effect) : Z := count_if is_request t.

(** [deliverFrame] messages received. *)
Definition frames_delivered (evs : list event) : Z := count_if is_delivery evs.

(** Sample batches handed to the audio node. *)
Fixpoint samples_forwarded (t : list effect) : list audio_buffer :=
  match t with
  | [] => []
  | AudioPostSamples _ samples :: t' => samples :: samples_forwarded t'
  | _ :: t' => samples_forwarded t'
  end.

(** Frames drawn on the canvas. *)
Fixpoint frames_presented (t : list effect) : list image_buffer :=
  match t with
  | [] => []
  | PutImageData pixels :: t' => pixels :: frames_presented t'
  | _ :: t' => frames_presented t'
  end.

(** Two states that agree on everything but the content of the sink. *)
Definition same_but_pixels (g g' : globals) : Prop :=
  g_pending_frames g = g_pending_frames g'
  /\ g_frames_since_last_fps_count g = g_frames_since_last_fps_count g'
  /\ g_audio_samples_buffered g = g_audio_samples_buffered g'
  /\ g_nes_audio_node g = g_nes_audio_node g'.

(** ** The call channel: [rpc] *)

Module Rpc.

(** The settled or unsettled state of the promise returned by [rpc]. *)
Inductive promise : Type :=
| Pending
| Fulfilled (v : Js.value)
| Rejected (reason : Js.value).

(** The data of a reply, [{error?, result?}]; [None] is an absent field. *)
Record reply : Type := Reply {
  error : option Js.value;
  result : option Js.value
}.

(** Every call creates one [MessageChannel] and one promise; both are named
    by the same index.  The heap holds the promises created so far. *)
Record heap : Type := Heap {
  next_channel : nat;
  promises : gmap nat promise
}.

Definition empty_heap : heap := {| next_channel := 0; promises := ∅ |}.

(** What [rpc] posts to the worker: the envelope and the transferred port. *)
Inductive posted : Type :=
| PostRpc (func : string) (args : list Js.value) (port2 : nat).

(** [resolve] and [reject] of a promise: only a pending promise settles. *)
Definition resolve (c : nat) (v : Js.value) (h : heap) : heap :=
  match promises h !! c with
  | Some Pending => {| next_channel := next_channel h; promises := <[c := Fulfilled v]> (promises h) |}
  | _ => h
  end.

Definition reject (c : nat) (reason : Js.value) (h : heap) : heap :=
  match promises h !! c with
  | Some Pending => {| next_channel := next_channel h; promises := <[c := Rejected reason]> (promises h) |}
  | _ => h
  end.

(** [channel.port1.onmessage] of the call with channel [c]. *)
Definition port1_onmessage (c : nat) (data : reply) (h : heap) : heap :=
  if Js.truthy (Js.get_prop (error data)) then
    reject c (Js.get_prop (error data)) h
  else
    resolve c (Js.get_prop (result data)) h.

(** [rpc(task, args)]: returns the index of the new promise. *)
Definition rpc (task : string) (args : list Js.value) (h : heap) : nat * heap * list posted :=
  let c := next_channel h in
  (c,
   {| next_channel := S c; promises := <[c := Pending]> (promises h) |},
   [PostRpc task args c]).

(** Callers issue calls; the worker answers on the ports it was given. *)
Inductive event : Type :=
| Call (task : string) (args : list Js.value)
| PortMessage (c : nat) (data : reply).

(** A message can only arrive on a port that exists. *)
Definition step (h : heap) (e : event) : heap :=
  match e with
  | Call task args => snd (fst (rpc task args h))
  | PortMessage c data =>
      if decide (c < next_channel h)%nat then port1_onmessage c data h else h
  end.

Definition run (h : heap) (evs : list event) : heap := fold_left step evs h.

(** The state a pending promise takes on a reply. *)
Definition settled_by (data : reply) : promise :=
  if Js.truthy (Js.get_prop (error data)) then Rejected (Js.get_prop (error data))
  else Fulfilled (Js.get_prop (result data)).

(** The first message addressed to port [c] in a sequence of events. *)
Fixpoint first_reply (c : nat) (evs : list event) : option reply :=
  match evs with
  | [] => None
  | PortMessage c' data :: evs' =>
      if decide (c' = c) then Some data else first_reply c evs'
  | Call _ _ :: evs' => first_reply c evs'
  end.

(** The promise of an issued call follows the first reply on its own port. *)
Definition follows (p : promise) (first : option reply) : promise :=
  match p, first with
  | Pending, Some data => settled_by data
  | _, _ => p
  end.

End Rpc.

(** ** Exact integers

    Every integer of magnitude at most 2^53 is a JavaScript number, and a sum
    or difference of two of them that stays in that range is computed
    exactly. *)
Definition safe_integer (z : Z) : bool := (- 2 ^ 53 <=? z) && (z <=? 2 ^ 53).

Definition count_safe (e : event) : bool :=
  match e with
  | AudioMessage (SamplesPlayed count) => safe_integer count
  | _ => true
  end.

(** Along a run, the sample counter and every reported count stay exact. *)
Fixpoint stays_exact (g : globals) (evs : list event) : bool :=
  safe_integer (g_audio_samples_buffered g)
  && match evs with
     | [] => true
     | e :: evs' => count_safe e && stays_exact (state_of (dispatch e g)) evs'
     end.

(** ** Further observations on runs *)

Definition is_fps_tick (e : event) : bool :=
  match e with
  | FpsTick => true
  | _ => false
  end.

(** Samples handed to the audio node, in total. *)
Fixpoint total_forwarded (t : list effect) : Z :=
  match t with
  | [] => 0
  | AudioPostSamples _ samples :: t' => Z.of_nat (length samples) + total_forwarded t'
  | _ :: t' => total_forwarded t'
  end.

(** Samples the audio node reported as played, in total. *)
Fixpoint total_played (evs : list event) : Z :=
  match evs with
  | [] => 0
  | AudioMessage (SamplesPlayed count) :: evs' => count + total_played evs'
  | _ :: evs' => total_played evs'
  end.

(** Every delivered batch holds at most [bound] samples. *)
Definition batch_within (bound : Z) (e : event) : bool :=
  match e with
  | WorkerMessage (DeliverFrame _ audio) => Z.of_nat (length audio) <=? bound
  | _ => true
  end.

(** Every acknowledgment carries a non-negative count. *)
Definition count_nonneg (e : event) : bool :=
  match e with
  | AudioMessage (SamplesPlayed count) => 0 <=? count
  | _ => true
  end.

(** ** The page: start-up, timers and the handlers together

    [onready] and [init_audio_context] are [async]; each runs in segments
    separated by its [await]s.  A segment runs to completion like any other
    handler, and the next one starts when the awaited promise settles.  The
    page state adds to the module-level variables what decides which segment
    or callback can run next. *)

Module Page.

Inductive output : Type :=
| Host (e : effect)
| Posted (p : Rpc.posted)
| ConsoleLogReply (reply : Js.value)
| NewAudioContext (ctx : nat)
| AddModule (ctx : nat)
| ConnectNode (node : nat) (ctx : option nat)
| AddFileLoaderListener
| SetIntervalSchedule
| SetIntervalFps.

Record state : Type := State {
  globals_of : globals;
  heap_of : Rpc.heap;
  (** [g_audio_context], null until [init_audio_context] runs. *)
  g_audio_context : option nat;
  (** Invocations of [onready] suspended on their echo call, by channel. *)
  awaiting_echo : gset nat;
  (** Invocations suspended in [init_audio_context] on [addModule]. *)
  awaiting_module : gset nat;
  (** Callbacks registered with [requestAnimationFrame] and not yet run. *)
  animation_frames : nat;
  (** Timers created by [setInterval(schedule_frames_at_top_speed, 1)]. *)
  schedule_intervals : nat;
  (** Timers created by [setInterval(compute_fps, 1000)]. *)
  fps_intervals : nat
}.

(** The page as loaded: nothing armed. *)
Definition initial : state :=
  {| globals_of := initial_globals;
     heap_of := Rpc.empty_heap;
     g_audio_context := None;
     awaiting_echo := ∅;
     awaiting_module := ∅;
     animation_frames := 0;
     schedule_intervals := 0;
     fps_intervals := 0 |}.

(** What the browser can deliver to the page.  The outcome of the browser's
    own work is part of the stimulus: [ModuleLoaded c node] is the fulfilment
    of [addModule] for the invocation that called on channel [c], with the
    node [new AudioWorkletNode] then yields ([None] if it throws);
    [ModuleFailed c] is its rejection. *)
Inductive stimulus : Type :=
| FromWorker (data : worker_data)
| OnPort (c : nat) (data : Rpc.reply)
| ModuleLoaded (c : nat) (node : option nat)
| ModuleFailed (c : nat)
| FromAudioNode (data : audio_data)
| ScheduleTimer
| FpsTimer
| Frame.

Definition is_raf (e : effect) : bool :=
  match e with
  | RequestAnimationFrame => true
  | _ => false
  end.

(** A handler of the script run on the page's module-level variables. *)
Definition host (e : event) (s : state) : state * list output :=
  match dispatch e (globals_of s) with
  | (_, g, t) =>
      ({| globals_of := g;
          heap_of := heap_of s;
          g_audio_context := g_audio_context s;
          awaiting_echo := awaiting_echo s;
          awaiting_module := awaiting_module s;
          animation_frames := animation_frames s + length (filter (fun e => is_raf e = true) t);
          schedule_intervals := schedule_intervals s;
          fps_intervals := fps_intervals s |},
       map Host t)
  end.

(** [onready] up to its first [await]: the echo call is posted. *)
Definition onready (s : state) : state * list output :=
  match Rpc.rpc "echo" [Js.Str "Hello World!"] (heap_of s) with
  | (c, h, posted) =>
      ({| globals_of := globals_of s;
          heap_of := h;
          g_audio_context := g_audio_context s;
          awaiting_echo := {[c]} ∪ awaiting_echo s;
          awaiting_module := awaiting_module s;
          animation_frames := animation_frames s;
          schedule_intervals := schedule_intervals s;
          fps_intervals := fps_intervals s |},
       map Posted posted)
  end.

(** [onready] from the echo's fulfilment to the [await] inside
    [init_audio_context]: the reply is logged, whatever it is, and the audio
    context is created ([new AudioContext] is taken to succeed) and named
    after the invocation. *)
Definition onready_after_echo (c : nat) (reply : Js.value) (s : state) : state * list output :=
  ({| globals_of := globals_of s;
      heap_of := heap_of s;
      g_audio_context := Some c;
      awaiting_echo := awaiting_echo s;
      awaiting_module := {[c]} ∪ awaiting_module s;
      animation_frames := animation_frames s;
      schedule_intervals := schedule_intervals s;
      fps_intervals := fps_intervals s |},
   [ConsoleLogReply reply; NewAudioContext c; AddModule c]).

(** The rest, once the module is loaded and the node created: the end of
    [init_audio_context], then the end of [onready], which registers the file
    loader's listener (the element is taken to exist) and arms the render loop
    and the two timers. *)
Definition onready_after_module (node : nat) (s : state) : state * list output :=
  match init_audio_context node (globals_of s) with
  | (_, g, t) =>
      ({| globals_of := g;
          heap_of := heap_of s;
          g_audio_context := g_audio_context s;
          awaiting_echo := awaiting_echo s;
          awaiting_module := awaiting_module s;
          animation_frames := S (animation_frames s);
          schedule_intervals := S (schedule_intervals s);
          fps_intervals := S (fps_intervals s) |},
       map Host t
         ++ [ConnectNode node (g_audio_context s); AddFileLoaderListener;
             Host RequestAnimationFrame; SetIntervalSchedule; SetIntervalFps])
  end.

Definition with_heap (h : Rpc.heap) (s : state) : state :=
  {| globals_of := globals_of s;
     heap_of := h;
     g_audio_context := g_audio_context s;
     awaiting_echo := awaiting_echo s;
     awaiting_module := awaiting_module s;
     animation_frames := animation_frames s;
     schedule_intervals := schedule_intervals s;
     fps_intervals := fps_intervals s |}.

Definition resume_echo (c : nat) (s : state) : state :=
  {| globals_of := globals_of s;
     heap_of := heap_of s;
     g_audio_context := g_audio_context s;
     awaiting_echo := awaiting_echo s ∖ {[c]};
     awaiting_module := awaiting_module s;
     animation_frames := animation_frames s;
     schedule_intervals := schedule_intervals s;
     fps_intervals := fps_intervals s |}.

Definition resume_module (c : nat) (s : state) : state :=
  {| globals_of := globals_of s;
     heap_of := heap_of s;
     g_audio_context := g_audio_context s;
     awaiting_echo := awaiting_echo s;
     awaiting_module := awaiting_module s ∖ {[c]};
     animation_frames := animation_frames s;
     schedule_intervals := schedule_intervals s;
     fps_intervals := fps_intervals s |}.

Definition take_animation_frame (s : state) : state :=
  {| globals_of := globals_of s;
     heap_of := heap_of s;
     g_audio_context := g_audio_context s;
     awaiting_echo := awaiting_echo s;
     awaiting_module := awaiting_module s;
     animation_frames := pred (animation_frames s);
     schedule_intervals := schedule_intervals s;
     fps_intervals := fps_intervals s |}.

(** One turn of the event loop.  A callback runs only if it was registered;
    a port message settles its call, and the invocation of [onready] awaiting
    that call goes on if the call was fulfilled and ends if it was
    rejected. *)
Definition step (s : state) (x : stimulus) : state * list output :=
  match x with
  | FromWorker data =>
      match host (WorkerMessage data) s with
      | (s1, t1) =>
          match data with
          | Init =>
              match onready s1 with
              | (s2, t2) => (s2, t1 ++ t2)
              end
          | _ => (s1, t1)
          end
      end
  | OnPort c data =>
      if decide (c < Rpc.next_channel (heap_of s))%nat then
        let s1 := with_heap (Rpc.port1_onmessage c data (heap_of s)) s in
        match Rpc.promises (heap_of s) !! c with
        | Some Rpc.Pending =>
            if decide (c ∈ awaiting_echo s) then
              match Rpc.promises (heap_of s1) !! c with
              | Some (Rpc.Fulfilled reply) => onready_after_echo c reply (resume_echo c s1)
              | _ => (resume_echo c s1, [])
              end
            else (s1, [])
        | _ => (s1, [])
        end
      else (s, [])
  | ModuleLoaded c node =>
      if decide (c ∈ awaiting_module s) then
        match node with
        | Some n => onready_after_module n (resume_module c s)
        | None => (resume_module c s, [])
        end
      else (s, [])
  | ModuleFailed c =>
      if decide (c ∈ awaiting_module s) then (resume_module c s, []) else (s, [])
  | FromAudioNode data => host (AudioMessage data) s
  | ScheduleTimer =>
      match schedule_intervals s with
      | O => (s, [])
      | S _ => host SchedulerTick s
      end
  | FpsTimer =>
      match fps_intervals s with
      | O => (s, [])
      | S _ => host FpsTick s
      end
  | Frame =>
      match animation_frames s with
      | O => (s, [])
      | S _ => host AnimationFrame (take_animation_frame s)
      end
  end.

Fixpoint exec (s : state) (xs : list stimulus) : state * list output :=
  match xs with
  | [] => (s, [])
  | x :: xs' =>
      match step s x with
      | (s1, t1) =>
          match exec s1 xs' with
          | (s2, t2) => (s2, t1 ++ t2)
          end
      end
  end.

(** The part of the page's log that the handlers wrote. *)
Fixpoint host_log (t : list output) : list effect :=
  match t with
  | [] => []
  | Host e :: t' => e :: host_log t'
  | _ :: t' => host_log t'
  end.

Definition is_init (x : stimulus) : bool :=
  match x with
  | FromWorker Init => true
  | _ => false
  end.

(** No invocation of [onready] is suspended. *)
Definition settled_startup (s : state) : Prop :=
  awaiting_echo s = ∅ /\ awaiting_module s = ∅.

(** A delivered pixel buffer has the length [ImageData] expects. *)
Definition frame_ok (x : stimulus) : bool :=
  match x with
  | FromWorker (DeliverFrame image _) => Z.of_nat (length image) =? frame_bytes
  | _ => true
  end.

(** The sink is empty or holds a buffer of that length. *)
Definition sink_ok (g : globals) : Prop :=
  forall buf, g_game_pixels g = Some buf -> Z.of_nat (length buf) = frame_bytes.

End Page.

(** * Properties *)

(** ** Unfolding handlers *)

Ltac unfold_handlers :=
  unfold dispatch, worker_onmessage, audio_gate, post_samples,
    handle_audio_message, schedule_frames_at_top_speed, renderLoop,
    new_ImageData, compute_fps, init_audio_context,
    assign_g_game_pixels, assign_g_pending_frames,
    assign_g_frames_since_last_fps_count, assign_g_audio_samples_buffered,
    assign_g_nes_audio_node, bind, read, emit, ret, throw,
    result_of, state_of, log_of in *.

Ltac split_tests :=
  repeat match goal with
    | |- context [ ?a <? ?b ] => destruct (Z.ltb_spec a b)
    | |- context [ ?a =? ?b ] => destruct (Z.eqb_spec a b)
    | |- context [ match g_nes_audio_node ?g with _ => _ end ] =>
        destruct (g_nes_audio_node g) eqn:?
    | |- context [ match g_game_pixels ?g with _ => _ end ] =>
        destruct (g_game_pixels g) eqn:?
    end.

Ltac step_handler := unfold_handlers; simpl; split_tests; simpl in *.

(** ** Runs *)

Lemma count_if_app {A} (p : A -> bool) (l1 l2 : list A) :
  count_if p (l1 ++ l2) = count_if p l1 + count_if p l2.
Proof. induction l1 as [| x l1 IH]; simpl; [reflexivity | rewrite IH; lia]. Qed.

Lemma run_cons g e evs :
  run g (e :: evs) =
  (fst (run (state_of (dispatch e g)) evs),
   log_of (dispatch e g) ++ snd (run (state_of (dispatch e g)) evs)).
Proof.
  simpl. unfold state_of, log_of.
  destruct (dispatch e g) as [[r g1] t1]; simpl.
  destruct (run g1 evs); reflexivity.
Qed.

Lemma run_app g evs1 evs2 :
  run g (evs1 ++ evs2) =
  (fst (run (fst (run g evs1)) evs2),
   snd (run g evs1) ++ snd (run (fst (run g evs1)) evs2)).
Proof.
  revert g; induction evs1 as [| e evs1 IH]; intros g.
  - simpl. destruct (run g evs2); reflexivity.
  - rewrite <- app_comm_cons, !run_cons, IH. simpl.
    rewrite app_assoc. reflexivity.
Qed.

Lemma run_cons_state g e evs :
  fst (run g (e :: evs)) = fst (run (state_of (dispatch e g)) evs).
Proof. rewrite run_cons. reflexivity. Qed.

Lemma run_cons_log g e evs :
  snd (run g (e :: evs)) =
  log_of (dispatch e g) ++ snd (run (state_of (dispatch e g)) evs).
Proof. rewrite run_cons. reflexivity. Qed.

Lemma run_app_state g evs1 evs2 :
  fst (run g (evs1 ++ evs2)) = fst (run (fst (run g evs1)) evs2).
Proof. rewrite run_app. reflexivity. Qed.

Lemma run_app_log g evs1 evs2 :
  snd (run g (evs1 ++ evs2)) =
  snd (run g evs1) ++ snd (run (fst (run g evs1)) evs2).
Proof. rewrite run_app. reflexivity. Qed.

Lemma run_nil g : run g [] = (g, []).
Proof. reflexivity. Qed.

(** One handler: the credit moves by the requests it sends minus the frame it
    receives, and never passes the cap. *)
Lemma dispatch_credit e g :
  g_pending_frames (state_of (dispatch e g)) =
    g_pending_frames g + requests_sent (log_of (dispatch e g))
    - (if is_delivery e then 1 else 0)
  /\ (g_pending_frames g <= 10 -> g_pending_frames (state_of (dispatch e g)) <= 10).
Proof.
  destruct e as [[| image audio | ty] | [count | ty] | | | | node];
    step_handler; unfold requests_sent; simpl; lia.
Qed.

Lemma run_credit evs : forall g,
  g_pending_frames (fst (run g evs)) =
    g_pending_frames g + requests_sent (snd (run g evs)) - frames_delivered evs
  /\ (g_pending_frames g <= 10 -> g_pending_frames (fst (run g evs)) <= 10).
Proof.
  induction evs as [| e evs IH]; intros g.
  - simpl. unfold requests_sent, frames_delivered; simpl. lia.
  - rewrite run_cons. simpl fst. simpl snd.
    destruct (dispatch_credit e g) as [Heq Hle].
    destruct (IH (state_of (dispatch e g))) as [Heq' Hle'].
    unfold requests_sent, frames_delivered in *.
    rewrite count_if_app. simpl count_if. split; [lia | auto].
Qed.

(** ** Frame credit *)

(** C1, as the code has it: from the initial state, after any sequence of
    events, [g_pending_frames] is at most 10 and equals the number of frame
    requests sent minus the number of [deliverFrame] messages received; it is
    therefore non-negative exactly as long as no more frames were delivered
    than were requested. *)
Theorem pending_frames_is_requests_minus_deliveries (evs : list event) :
  g_pending_frames (fst (run initial_globals evs)) <= 10
  /\ g_pending_frames (fst (run initial_globals evs)) =
       requests_sent (snd (run initial_globals evs)) - frames_delivered evs.
Proof.
  destruct (run_credit evs initial_globals) as [Heq Hle].
  split.
  - apply Hle. simpl. lia.
  - rewrite Heq. simpl. lia.
Qed.

(** C1 as stated fails: one [deliverFrame] message that answers no request
    takes the counter from 0 to -1. *)
Lemma pending_frames_below_zero :
  ~ (0 <= g_pending_frames
            (fst (run initial_globals [WorkerMessage (DeliverFrame [] [])])) <= 10).
Proof. vm_compute. intros [H _]. apply H. reflexivity. Qed.

(** C10: [worker.onmessage] subtracts 1 from [g_pending_frames] on every
    [deliverFrame] message, whatever the counter holds; from 0 it goes
    to -1. *)
Theorem deliver_frame_decrement_unguarded
  (g : globals) (image : image_buffer) (audio : audio_buffer) :
  g_pending_frames (state_of (worker_onmessage (DeliverFrame image audio) g)) =
    g_pending_frames g - 1
  /\ (g_pending_frames g = 0 ->
      g_pending_frames (state_of (worker_onmessage (DeliverFrame image audio) g)) = -1).
Proof. split; [| intros H]; step_handler; lia. Qed.

(** The initial state is such a state. *)
Lemma deliver_frame_decrement_unguarded_witness :
  g_pending_frames initial_globals = 0
  /\ g_pending_frames
       (state_of (worker_onmessage (DeliverFrame [7] [1; 2]) initial_globals)) = -1.
Proof.
  split; [reflexivity |].
  apply (proj2 (deliver_frame_decrement_unguarded initial_globals [7] [1; 2])).
  reflexivity.
Defined.

(** C5: a scheduler tick below the cap posts exactly one [requestFrame] and
    adds 1 to [g_pending_frames]; at the cap it posts nothing and leaves the
    state alone.  Twelve ticks from the initial state post ten requests and
    leave the counter at 10; the eleventh and twelfth post nothing. *)
Theorem scheduler_tick_admission (g : globals) :
  (g_pending_frames g < 10 ->
     schedule_frames_at_top_speed g =
       (Returned tt,
        {| g_pending_frames := g_pending_frames g + 1;
           g_frames_since_last_fps_count := g_frames_since_last_fps_count g;
           g_game_pixels := g_game_pixels g;
           g_audio_samples_buffered := g_audio_samples_buffered g;
           g_nes_audio_node := g_nes_audio_node g |},
        [WorkerPostMessage RequestFrame;
         Set_g_pending_frames (g_pending_frames g + 1)]))
  /\ (10 <= g_pending_frames g ->
        schedule_frames_at_top_speed g = (Returned tt, g, []))
  /\ requests_sent (snd (run initial_globals (repeat SchedulerTick 12))) = 10
  /\ g_pending_frames (fst (run initial_globals (repeat SchedulerTick 12))) = 10
  /\ log_of (dispatch SchedulerTick
               (fst (run initial_globals (repeat SchedulerTick 10)))) = []
  /\ log_of (dispatch SchedulerTick
               (fst (run initial_globals (repeat SchedulerTick 11)))) = []
  /\ run initial_globals (repeat SchedulerTick 12) =
     run initial_globals (repeat SchedulerTick 10).
Proof.
  split; [| split].
  - intros H. step_handler; [reflexivity | lia].
  - intros H. step_handler; [lia | reflexivity].
  - vm_compute. repeat split; reflexivity.
Qed.

(** Both branches at concrete states: the initial one, and the one reached
    after ten ticks. *)
Lemma scheduler_tick_admission_witness :
  schedule_frames_at_top_speed initial_globals =
    (Returned tt,
     {| g_pending_frames := 1;
        g_frames_since_last_fps_count := 0;
        g_game_pixels := None;
        g_audio_samples_buffered := 0;
        g_nes_audio_node := None |},
     [WorkerPostMessage RequestFrame; Set_g_pending_frames 1])
  /\ schedule_frames_at_top_speed
       (fst (run initial_globals (repeat SchedulerTick 10))) =
     (Returned tt, fst (run initial_globals (repeat SchedulerTick 10)), []).
Proof.
  split.
  - apply (proj1 (scheduler_tick_admission initial_globals)). reflexivity.
  - apply (proj1 (proj2 (scheduler_tick_admission
                           (fst (run initial_globals (repeat SchedulerTick 10)))))).
    vm_compute. discriminate.
Defined.

(** ** Frame delivery *)

(** C8: the log of [worker.onmessage] on a [deliverFrame] message is, in this
    order: the store of the pixel buffer into [g_game_pixels] (whatever it
    held), the decrement of [g_pending_frames], the increment of
    [g_frames_since_last_fps_count], and then the log of the audio gate run on
    the message's samples in the state those three assignments leave. *)
Theorem deliver_frame_effect_order
  (g : globals) (image : image_buffer) (audio : audio_buffer) :
  let g3 := {| g_pending_frames := g_pending_frames g - 1;
               g_frames_since_last_fps_count := g_frames_since_last_fps_count g + 1;
               g_game_pixels := Some image;
               g_audio_samples_buffered := g_audio_samples_buffered g;
               g_nes_audio_node := g_nes_audio_node g |} in
  log_of (worker_onmessage (DeliverFrame image audio) g) =
    [Set_g_game_pixels (Some image);
     Set_g_pending_frames (g_pending_frames g - 1);
     Set_g_frames_since_last_fps_count (g_frames_since_last_fps_count g + 1)]
    ++ log_of (audio_gate audio g3)
  /\ state_of (worker_onmessage (DeliverFrame image audio) g) =
       state_of (audio_gate audio g3)
  /\ result_of (worker_onmessage (DeliverFrame image audio) g) =
       result_of (audio_gate audio g3).
Proof.
  intros g3. unfold worker_onmessage, bind, read, assign_g_game_pixels,
    assign_g_pending_frames, assign_g_frames_since_last_fps_count,
    log_of, state_of, result_of. simpl. fold g3.
  destruct (audio_gate audio g3) as [[r g'] t]. simpl. auto.
Qed.

(** ** Audio gate *)

(** C2 as stated fails: in the state the script starts in, where
    [g_nes_audio_node] is still null, a batch received below 8192 is not
    forwarded and the counter does not move. *)
Lemma audio_gate_needs_audio_node :
  ~ (g_audio_samples_buffered initial_globals < 8192 ->
     samples_forwarded
       (log_of (worker_onmessage (DeliverFrame [] [5; 6; 7]) initial_globals)) = [[5; 6; 7]]
     /\ g_audio_samples_buffered
          (state_of (worker_onmessage (DeliverFrame [] [5; 6; 7]) initial_globals)) =
        g_audio_samples_buffered initial_globals + 3).
Proof.
  intros H. destruct H as [H _]; [reflexivity |].
  vm_compute in H. discriminate H.
Qed.

(** C2, as the code has it: when the audio node exists, a [deliverFrame]
    message received with [g_audio_samples_buffered] below 8192 (and an exact
    integer) posts its whole batch to the node, once, and adds the batch
    length to the counter; received at 8192 or above it posts nothing, logs
    the overrun, and leaves the counter as it was. *)
Theorem audio_gate_forwards_or_drops
  (g : globals) (image : image_buffer) (audio : audio_buffer) (node : nat) :
  g_nes_audio_node g = Some node ->
  (g_audio_samples_buffered g < 8192 ->
   safe_integer (g_audio_samples_buffered g) = true ->
     samples_forwarded (log_of (worker_onmessage (DeliverFrame image audio) g)) = [audio]
     /\ g_audio_samples_buffered (state_of (worker_onmessage (DeliverFrame image audio) g)) =
          g_audio_samples_buffered g + Z.of_nat (length audio))
  /\ (8192 <= g_audio_samples_buffered g ->
        samples_forwarded (log_of (worker_onmessage (DeliverFrame image audio) g)) = []
        /\ g_audio_samples_buffered (state_of (worker_onmessage (DeliverFrame image audio) g)) =
             g_audio_samples_buffered g).
Proof.
  intros Hnode. split; [intros H _ | intros H];
    step_handler; try lia; try congruence; auto.
Qed.

(** A batch of three samples at 1000 and at 8192 buffered. *)
Lemma audio_gate_forwards_or_drops_witness :
  samples_forwarded
    (log_of (worker_onmessage (DeliverFrame [] [5; 6; 7])
               (Globals 1 0 None 1000 (Some 0%nat)))) = [[5; 6; 7]]
  /\ g_audio_samples_buffered
       (state_of (worker_onmessage (DeliverFrame [] [5; 6; 7])
                    (Globals 1 0 None 1000 (Some 0%nat)))) = 1003
  /\ samples_forwarded
       (log_of (worker_onmessage (DeliverFrame [] [5; 6; 7])
                  (Globals 1 0 None 8192 (Some 0%nat)))) = []
  /\ g_audio_samples_buffered
       (state_of (worker_onmessage (DeliverFrame [] [5; 6; 7])
                    (Globals 1 0 None 8192 (Some 0%nat)))) = 8192.
Proof.
  pose proof (audio_gate_forwards_or_drops
                (Globals 1 0 None 1000 (Some 0%nat)) [] [5; 6; 7] 0%nat eq_refl) as H1.
  pose proof (audio_gate_forwards_or_drops
                (Globals 1 0 None 8192 (Some 0%nat)) [] [5; 6; 7] 0%nat eq_refl) as H2.
  destruct H1 as [H1 _]. destruct H2 as [_ H2].
  split; [apply H1; reflexivity |].
  split; [apply H1; reflexivity |].
  split; apply H2; simpl; lia.
Defined.

(** C3 as stated fails: with 8000 samples buffered a batch of 300 is
    forwarded and the counter becomes 8300, although 8000 + 300 >= 8192. *)
Lemma audio_gate_ignores_batch_length :
  ~ (8000 + Z.of_nat (length (repeat 0 300)) >= 8192 ->
     samples_forwarded
       (log_of (worker_onmessage (DeliverFrame [] (repeat 0 300))
                  (Globals 1 0 None 8000 (Some 0%nat)))) = []
     /\ g_audio_samples_buffered
          (state_of (worker_onmessage (DeliverFrame [] (repeat 0 300))
                       (Globals 1 0 None 8000 (Some 0%nat)))) = 8000).
Proof.
  intros H. destruct H as [H _]; [vm_compute; discriminate |].
  vm_compute in H. discriminate H.
Qed.

(** C3, as the code has it: the gate compares the counter alone with 8192.
    A batch received with [g_audio_samples_buffered >= 8192] is dropped and the
    counter is unchanged; a batch received below 8192 is forwarded and counted
    even when it takes the counter to 8192 or beyond.  With 8000 buffered, a
    batch of 300 is forwarded and the counter becomes 8300. *)
Theorem audio_gate_threshold_on_counter
  (g : globals) (image : image_buffer) (audio : audio_buffer) :
  (8192 <= g_audio_samples_buffered g ->
     samples_forwarded (log_of (worker_onmessage (DeliverFrame image audio) g)) = []
     /\ g_audio_samples_buffered (state_of (worker_onmessage (DeliverFrame image audio) g)) =
          g_audio_samples_buffered g)
  /\ (g_nes_audio_node g <> None ->
      g_audio_samples_buffered g < 8192 ->
      8192 <= g_audio_samples_buffered g + Z.of_nat (length audio) ->
        samples_forwarded (log_of (worker_onmessage (DeliverFrame image audio) g)) = [audio]
        /\ g_audio_samples_buffered (state_of (worker_onmessage (DeliverFrame image audio) g)) =
             g_audio_samples_buffered g + Z.of_nat (length audio))
  /\ samples_forwarded
       (log_of (worker_onmessage (DeliverFrame image (repeat 0 300))
                  (Globals 1 0 None 8000 (Some 0%nat)))) = [repeat 0 300]
  /\ g_audio_samples_buffered
       (state_of (worker_onmessage (DeliverFrame image (repeat 0 300))
                    (Globals 1 0 None 8000 (Some 0%nat)))) = 8300.
Proof.
  split; [| split].
  - intros H. step_handler; try lia; auto.
  - intros Hnode Hlt Hge. step_handler; try lia; try congruence; auto.
  - split; reflexivity.
Qed.

(** A batch of two samples at 9000 and at 8191 buffered. *)
Lemma audio_gate_threshold_on_counter_witness :
  (samples_forwarded
     (log_of (worker_onmessage (DeliverFrame [] [1; 2])
                (Globals 1 0 None 9000 (Some 0%nat)))) = []
   /\ g_audio_samples_buffered
        (state_of (worker_onmessage (DeliverFrame [] [1; 2])
                     (Globals 1 0 None 9000 (Some 0%nat)))) = 9000)
  /\ (samples_forwarded
        (log_of (worker_onmessage (DeliverFrame [] [1; 2])
                   (Globals 1 0 None 8191 (Some 0%nat)))) = [[1; 2]]
      /\ g_audio_samples_buffered
           (state_of (worker_onmessage (DeliverFrame [] [1; 2])
                        (Globals 1 0 None 8191 (Some 0%nat)))) = 8193).
Proof.
  split.
  - apply (proj1 (audio_gate_threshold_on_counter
                    (Globals 1 0 None 9000 (Some 0%nat)) [] [1; 2])).
    simpl. lia.
  - apply (proj1 (proj2 (audio_gate_threshold_on_counter
                           (Globals 1 0 None 8191 (Some 0%nat)) [] [1; 2]))).
    + simpl. discriminate.
    + simpl. lia.
    + simpl. lia.
Defined.

(** C4 as stated fails: there is no floor; with 100 samples buffered an
    acknowledgment of 400 leaves the counter at -300. *)
Lemma samples_played_below_zero :
  ~ (0 <= g_audio_samples_buffered
            (state_of (handle_audio_message (SamplesPlayed 400)
                         (Globals 0 0 None 100 (Some 0%nat))))).
Proof. vm_compute. intros H. apply H. reflexivity. Qed.

(** C4, as the code has it: a [samplesPlayed] message with count [C]
    subtracts exactly [C] from [g_audio_samples_buffered], with no floor, and
    changes nothing else, as long as the counter, the count and the
    difference are exact integers (of magnitude at most 2^53).  From 1000
    buffered, a batch of 500 gives 1500 and an acknowledgment of 400 then
    gives 1100. *)
Theorem samples_played_subtracts_count (g : globals) (count : Z) :
  (safe_integer (g_audio_samples_buffered g) = true ->
   safe_integer count = true ->
   safe_integer (g_audio_samples_buffered g - count) = true ->
   handle_audio_message (SamplesPlayed count) g =
    (Returned tt,
     {| g_pending_frames := g_pending_frames g;
        g_frames_since_last_fps_count := g_frames_since_last_fps_count g;
        g_game_pixels := g_game_pixels g;
        g_audio_samples_buffered := g_audio_samples_buffered g - count;
        g_nes_audio_node := g_nes_audio_node g |},
     [Set_g_audio_samples_buffered (g_audio_samples_buffered g - count)]))
  /\ g_audio_samples_buffered
       (fst (run (Globals 1 0 None 1000 (Some 0%nat))
               [WorkerMessage (DeliverFrame [] (repeat 0 500))])) = 1500
  /\ g_audio_samples_buffered
       (fst (run (Globals 1 0 None 1000 (Some 0%nat))
               [WorkerMessage (DeliverFrame [] (repeat 0 500));
                AudioMessage (SamplesPlayed 400)])) = 1100.
Proof. split; [intros _ _ _; reflexivity | split; reflexivity]. Qed.

(** From 100 buffered, an acknowledgment of 400. *)
Lemma samples_played_subtracts_count_witness :
  handle_audio_message (SamplesPlayed 400) (Globals 0 0 None 100 (Some 0%nat)) =
    (Returned tt,
     {| g_pending_frames := 0;
        g_frames_since_last_fps_count := 0;
        g_game_pixels := None;
        g_audio_samples_buffered := 100 - 400;
        g_nes_audio_node := Some 0%nat |},
     [Set_g_audio_samples_buffered (100 - 400)]).
Proof.
  apply (proj1 (samples_played_subtracts_count
                  (Globals 0 0 None 100 (Some 0%nat)) 400)); reflexivity.
Defined.

(** ** Frame sink *)

Lemma Uint8ClampedArray_length buf :
  length (Uint8ClampedArray buf) = length buf.
Proof. unfold Uint8ClampedArray. apply length_map. Qed.

Lemma same_but_pixels_refl g : same_but_pixels g g.
Proof. repeat split. Qed.

Lemma frames_presented_app t1 t2 :
  frames_presented (t1 ++ t2) = frames_presented t1 ++ frames_presented t2.
Proof.
  induction t1 as [| e t1 IH]; simpl; [reflexivity |].
  destruct e; simpl; rewrite ?IH; reflexivity.
Qed.

(** Only [renderLoop] reads the sink: any other handler presents nothing and
    keeps two such states in step. *)
Lemma dispatch_blind_to_pixels e g g' :
  is_render e = false ->
  same_but_pixels g g' ->
  same_but_pixels (state_of (dispatch e g)) (state_of (dispatch e g'))
  /\ frames_presented (log_of (dispatch e g)) = []
  /\ frames_presented (log_of (dispatch e g')) = [].
Proof.
  intros Hr (Hp & Hf & Hb & Hn).
  destruct g as [p f px b n], g' as [p' f' px' b' n']; simpl in *; subst.
  unfold same_but_pixels.
  destruct e as [[| image audio | ty] | [count | ty] | | | | node];
    try discriminate Hr; unfold_handlers; simpl;
    destruct n' as [node' |], (b' <? 8192), (p' <? 10); simpl; auto.
Qed.

Lemma run_blind_to_pixels mid : forall g g',
  forallb (fun e => negb (is_render e)) mid = true ->
  same_but_pixels g g' ->
  same_but_pixels (fst (run g mid)) (fst (run g' mid))
  /\ frames_presented (snd (run g mid)) = []
  /\ frames_presented (snd (run g' mid)) = [].
Proof.
  induction mid as [| e mid IH]; intros g g' Hmid Hsame.
  - simpl. auto.
  - simpl in Hmid. apply andb_true_iff in Hmid as [He Hmid].
    apply negb_true_iff in He.
    destruct (dispatch_blind_to_pixels e g g' He Hsame) as (Hs & H1 & H2).
    destruct (IH _ _ Hmid Hs) as (Hs' & H1' & H2').
    rewrite !run_cons. simpl fst. simpl snd.
    rewrite !frames_presented_app, H1, H2, H1', H2'. auto.
Qed.

(** A delivery overwrites the sink, so it brings two such states together. *)
Lemma deliver_joins g g' image audio :
  same_but_pixels g g' ->
  dispatch (WorkerMessage (DeliverFrame image audio)) g =
  dispatch (WorkerMessage (DeliverFrame image audio)) g'.
Proof.
  intros (Hp & Hf & Hb & Hn).
  destruct g as [p f px b n], g' as [p' f' px' b' n']; simpl in *; subst.
  reflexivity.
Qed.

(** C9 as stated fails: a sink holding a buffer that is not a 256 x 240 RGBA
    frame is neither presented nor cleared by [renderLoop]. *)
Lemma render_loop_keeps_malformed_frame :
  ~ (g_game_pixels (Globals 0 1 (Some [1; 2; 3; 4]) 0 (Some 0%nat)) = Some [1; 2; 3; 4] ->
     frames_presented
       (log_of (renderLoop (Globals 0 1 (Some [1; 2; 3; 4]) 0 (Some 0%nat)))) <> []
     /\ g_game_pixels
          (state_of (renderLoop (Globals 0 1 (Some [1; 2; 3; 4]) 0 (Some 0%nat)))) = None).
Proof.
  intros H. destruct (H eq_refl) as [_ Hcleared].
  vm_compute in Hcleared. discriminate Hcleared.
Qed.

(** C9, as the code has it: the sink is the single variable [g_game_pixels].
    [renderLoop] presents (as its copy clamped to bytes) and clears a buffer
    of the fixed 256 x 240 RGBA length when the sink holds one, and only
    re-arms itself when the sink is empty.  When a
    frame [f1] is delivered and a frame [f2] is delivered before the next
    render, nothing is presented in between, the sink then holds [f2], and
    neither the frames presented later nor the final state depend on [f1]. *)
Theorem frame_sink_latest_wins (g : globals) :
  (forall buf,
      g_game_pixels g = Some buf ->
      Z.of_nat (length buf) = frame_bytes ->
      renderLoop g =
        (Returned tt,
         {| g_pending_frames := g_pending_frames g;
            g_frames_since_last_fps_count := g_frames_since_last_fps_count g;
            g_game_pixels := None;
            g_audio_samples_buffered := g_audio_samples_buffered g;
            g_nes_audio_node := g_nes_audio_node g |},
         [PutImageData (Uint8ClampedArray buf); Set_g_game_pixels None;
          RequestAnimationFrame]))
  /\ (g_game_pixels g = None ->
      renderLoop g = (Returned tt, g, [RequestAnimationFrame]))
  /\ (forall f1 f1' a1 f2 a2 mid rest,
        forallb (fun e => negb (is_render e)) mid = true ->
        frames_presented
          (snd (run g (WorkerMessage (DeliverFrame f1 a1) :: mid
                         ++ [WorkerMessage (DeliverFrame f2 a2)]))) = []
        /\ g_game_pixels
             (fst (run g (WorkerMessage (DeliverFrame f1 a1) :: mid
                            ++ [WorkerMessage (DeliverFrame f2 a2)]))) = Some f2
        /\ frames_presented
             (snd (run g (WorkerMessage (DeliverFrame f1 a1) :: mid
                            ++ WorkerMessage (DeliverFrame f2 a2) :: rest))) =
           frames_presented
             (snd (run g (WorkerMessage (DeliverFrame f1' a1) :: mid
                            ++ WorkerMessage (DeliverFrame f2 a2) :: rest)))
        /\ fst (run g (WorkerMessage (DeliverFrame f1 a1) :: mid
                         ++ WorkerMessage (DeliverFrame f2 a2) :: rest)) =
           fst (run g (WorkerMessage (DeliverFrame f1' a1) :: mid
                         ++ WorkerMessage (DeliverFrame f2 a2) :: rest))).
Proof.
  split; [| split].
  - intros buf Hsome Hlen. unfold renderLoop, new_ImageData, bind, read.
    rewrite Hsome, Uint8ClampedArray_length.
    apply Z.eqb_eq in Hlen. rewrite Hlen. reflexivity.
  - intros Hnone. unfold renderLoop, bind, read. rewrite Hnone. reflexivity.
  - intros f1 f1' a1 f2 a2 mid rest Hmid.
    set (d1 := WorkerMessage (DeliverFrame f1 a1)).
    set (d1' := WorkerMessage (DeliverFrame f1' a1)).
    set (d2 := WorkerMessage (DeliverFrame f2 a2)).
    assert (H1 : same_but_pixels (state_of (dispatch d1 g)) (state_of (dispatch d1' g))).
    { destruct g as [p f px b n]. unfold d1, d1', same_but_pixels.
      unfold_handlers; simpl. destruct n, (b <? 8192); simpl; auto. }
    assert (Hl1 : forall f, frames_presented
                              (log_of (dispatch (WorkerMessage (DeliverFrame f a1)) g)) = []).
    { intros f. destruct (dispatch_blind_to_pixels (WorkerMessage (DeliverFrame f a1))
                            g g eq_refl (same_but_pixels_refl g)) as (_ & H & _).
      exact H. }
    destruct (run_blind_to_pixels mid _ _ Hmid H1) as (H2 & Hm & Hm').
    pose proof (deliver_joins _ _ f2 a2 H2) as Hjoin. fold d2 in Hjoin.
    assert (Hl2 : forall g0, frames_presented (log_of (dispatch d2 g0)) = []).
    { intros g0. destruct (dispatch_blind_to_pixels d2 g0 g0 eq_refl
                             (same_but_pixels_refl g0)) as (_ & H & _).
      exact H. }
    repeat split.
    + rewrite run_cons_log, run_app_log, run_cons_log, run_nil.
      rewrite !frames_presented_app. unfold d1 at 1.
      rewrite Hl1, Hm, Hl2. reflexivity.
    + rewrite run_cons_state, run_app_state, run_cons_state, run_nil.
      unfold d2. destruct (fst (run (state_of (dispatch d1 g)) mid)) as [p f px b n].
      unfold_handlers; simpl. destruct n, (b <? 8192); reflexivity.
    + rewrite !run_cons_log, !run_app_log, !run_cons_log.
      rewrite !frames_presented_app. unfold d1 at 1, d1' at 1.
      rewrite !Hl1, Hm, Hm', !Hl2. fold d1 d1'. rewrite Hjoin. reflexivity.
    + rewrite !run_cons_state, !run_app_state, !run_cons_state.
      rewrite Hjoin. reflexivity.
Qed.

(** A full-size frame is presented and cleared; an empty sink is left alone;
    frame [[1]] is overwritten by frame [[2]]. *)
Lemma frame_sink_latest_wins_witness :
  renderLoop (Globals 0 1 (Some (repeat 0 (Z.to_nat frame_bytes))) 0 (Some 0%nat)) =
    (Returned tt,
     Globals 0 1 None 0 (Some 0%nat),
     [PutImageData (Uint8ClampedArray (repeat 0 (Z.to_nat frame_bytes)));
      Set_g_game_pixels None; RequestAnimationFrame])
  /\ renderLoop initial_globals = (Returned tt, initial_globals, [RequestAnimationFrame])
  /\ g_game_pixels
       (fst (run initial_globals
               (WorkerMessage (DeliverFrame [1] []) :: [SchedulerTick]
                  ++ [WorkerMessage (DeliverFrame [2] [])]))) = Some [2].
Proof.
  split; [| split].
  - apply (proj1 (frame_sink_latest_wins
                    (Globals 0 1 (Some (repeat 0 (Z.to_nat frame_bytes))) 0 (Some 0%nat)))
             (repeat 0 (Z.to_nat frame_bytes))).
    + reflexivity.
    + rewrite repeat_length. vm_compute. reflexivity.
  - apply (proj1 (proj2 (frame_sink_latest_wins initial_globals))). reflexivity.
  - apply (proj2 (proj2 (frame_sink_latest_wins initial_globals))
             [1] [3] [] [2] [] [SchedulerTick] [AnimationFrame]).
    reflexivity.
Defined.

(** ** Call channel *)

Lemma port1_onmessage_pending c data h :
  Rpc.promises h !! c = Some Rpc.Pending ->
  Rpc.promises (Rpc.port1_onmessage c data h) !! c = Some (Rpc.settled_by data)
  /\ Rpc.next_channel (Rpc.port1_onmessage c data h) = Rpc.next_channel h.
Proof.
  intros H. unfold Rpc.port1_onmessage, Rpc.settled_by, Rpc.reject, Rpc.resolve.
  destruct (Js.truthy _); rewrite H; simpl; rewrite lookup_insert_eq; auto.
Qed.

Lemma port1_onmessage_settled c data h p :
  Rpc.promises h !! c = Some p ->
  p <> Rpc.Pending ->
  Rpc.port1_onmessage c data h = h.
Proof.
  intros H Hp. unfold Rpc.port1_onmessage, Rpc.reject, Rpc.resolve.
  destruct (Js.truthy _); rewrite H; destruct p; congruence.
Qed.

(** A reply on port [b] leaves every other promise alone. *)
Lemma port1_onmessage_other a b data h :
  a <> b ->
  Rpc.promises (Rpc.port1_onmessage b data h) !! a = Rpc.promises h !! a.
Proof.
  intros Hab. unfold Rpc.port1_onmessage, Rpc.reject, Rpc.resolve.
  destruct (Js.truthy _); destruct (Rpc.promises h !! b) as [[| |] |];
    simpl; rewrite ?lookup_insert_ne by congruence; reflexivity.
Qed.

Lemma port1_onmessage_next c data h :
  Rpc.next_channel (Rpc.port1_onmessage c data h) = Rpc.next_channel h.
Proof.
  unfold Rpc.port1_onmessage, Rpc.reject, Rpc.resolve.
  destruct (Js.truthy _); destruct (Rpc.promises h !! c) as [[| |] |]; reflexivity.
Qed.

Lemma settled_by_not_pending data : Rpc.settled_by data <> Rpc.Pending.
Proof. unfold Rpc.settled_by. destruct (Js.truthy _); discriminate. Qed.

Lemma follows_settled p first : p <> Rpc.Pending -> Rpc.follows p first = p.
Proof. destruct p; simpl; congruence. Qed.

Lemma run_follows evs : forall h c p,
  (c < Rpc.next_channel h)%nat ->
  Rpc.promises h !! c = Some p ->
  Rpc.promises (Rpc.run h evs) !! c = Some (Rpc.follows p (Rpc.first_reply c evs)).
Proof.
  induction evs as [| e evs IH]; intros h c p Hc Hp.
  - simpl. rewrite Hp. destruct p; reflexivity.
  - change (Rpc.run h (e :: evs)) with (Rpc.run (Rpc.step h e) evs).
    destruct e as [task args | c' data]; simpl Rpc.step; simpl Rpc.first_reply.
    + apply IH; simpl; [lia |].
      rewrite lookup_insert_ne by lia. exact Hp.
    + destruct (decide (c' < Rpc.next_channel h)%nat) as [Hc' | Hc'].
      * destruct (decide (c' = c)) as [-> | Hne].
        -- assert (Hd : p = Rpc.Pending \/ p <> Rpc.Pending)
             by (destruct p; [left; reflexivity | right; discriminate ..]).
           destruct Hd as [-> | Hset].
           ++ destruct (port1_onmessage_pending c data h Hp) as [Hl Hn].
              rewrite (IH _ c _ ltac:(rewrite Hn; exact Hc) Hl).
              rewrite follows_settled by apply settled_by_not_pending.
              reflexivity.
           ++ rewrite (port1_onmessage_settled c data h p Hp Hset).
              rewrite (IH h c p Hc Hp).
              rewrite !follows_settled by assumption. reflexivity.
        -- apply IH.
           ++ rewrite port1_onmessage_next. exact Hc.
           ++ rewrite port1_onmessage_other by congruence. exact Hp.
      * destruct (decide (c' = c)) as [-> | Hne]; [lia |].
        apply IH; assumption.
Qed.

(** C7: from the empty heap, after any sequence of calls and replies, a call
    issued at any point ends in the state fixed by the first reply on its own
    port in what follows (pending while there is none), whatever else is
    issued or answered in between; a reply on another port never touches a
    call's promise.  With calls [a] and [b] pending and [b] answered first,
    [b] is fulfilled with its reply's result and [a] is still pending. *)
Theorem rpc_replies_routed_by_port :
  (forall (evs1 : list Rpc.event) (task : string) (args : list Js.value)
          (evs2 : list Rpc.event),
      Rpc.promises
        (Rpc.run (Rpc.run Rpc.empty_heap evs1) (Rpc.Call task args :: evs2))
        !! Rpc.next_channel (Rpc.run Rpc.empty_heap evs1) =
      Some (match Rpc.first_reply (Rpc.next_channel (Rpc.run Rpc.empty_heap evs1)) evs2 with
            | Some data => Rpc.settled_by data
            | None => Rpc.Pending
            end))
  /\ (forall (h : Rpc.heap) (a b : nat) (data : Rpc.reply),
        a <> b ->
        Rpc.promises (Rpc.port1_onmessage b data h) !! a = Rpc.promises h !! a)
  /\ Rpc.promises
       (Rpc.run Rpc.empty_heap
          [Rpc.Call "a" []; Rpc.Call "b" [];
           Rpc.PortMessage 1 (Rpc.Reply None (Some (Js.Str "for b")))])
       !! 0%nat = Some Rpc.Pending
  /\ Rpc.promises
       (Rpc.run Rpc.empty_heap
          [Rpc.Call "a" []; Rpc.Call "b" [];
           Rpc.PortMessage 1 (Rpc.Reply None (Some (Js.Str "for b")))])
       !! 1%nat = Some (Rpc.Fulfilled (Js.Str "for b")).
Proof.
  split; [| split; [| split]].
  - intros evs1 task args evs2.
    set (h := Rpc.run Rpc.empty_heap evs1).
    change (Rpc.run h (Rpc.Call task args :: evs2))
      with (Rpc.run (Rpc.step h (Rpc.Call task args)) evs2).
    rewrite (run_follows evs2 _ (Rpc.next_channel h) Rpc.Pending).
    + reflexivity.
    + simpl. lia.
    + simpl. apply lookup_insert_eq.
  - intros h a b data Hab. apply port1_onmessage_other. exact Hab.
  - vm_compute. reflexivity.
  - vm_compute. reflexivity.
Qed.

(** The reply to the second call leaves the first call's promise alone. *)
Lemma rpc_replies_routed_by_port_witness :
  Rpc.promises
    (Rpc.port1_onmessage 1 (Rpc.Reply None (Some (Js.Num 3)))
       (Rpc.run Rpc.empty_heap [Rpc.Call "a" []; Rpc.Call "b" []])) !! 0%nat =
  Rpc.promises (Rpc.run Rpc.empty_heap [Rpc.Call "a" []; Rpc.Call "b" []]) !! 0%nat.
Proof.
  apply (proj1 (proj2 rpc_replies_routed_by_port)). discriminate.
Defined.

(** C6 as stated fails: a reply that carries an [error] field holding [null]
    fulfils the call with its [result]. *)
Lemma rpc_null_error_fulfils :
  ~ (Rpc.error (Rpc.Reply (Some Js.Null) (Some (Js.Str "Hello World!"))) <> None ->
     exists reason,
       Rpc.promises
         (Rpc.run Rpc.empty_heap
            [Rpc.Call "echo" [Js.Str "Hello World!"];
             Rpc.PortMessage 0 (Rpc.Reply (Some Js.Null) (Some (Js.Str "Hello World!")))])
         !! 0%nat = Some (Rpc.Rejected reason)).
Proof.
  intros H. destruct H as [reason H]; [discriminate |].
  vm_compute in H. discriminate H.
Qed.

(** C6, as the code has it: the reply to a call rejects the call's promise
    with the value of the [error] field when that value is truthy, and
    otherwise (field absent, or holding a falsy value such as [null], [0] or
    the empty string) fulfils it with the value of the [result] field. *)
Theorem rpc_reply_settles_call
  (h : Rpc.heap) (task : string) (args : list Js.value) (data : Rpc.reply) :
  fst (fst (Rpc.rpc task args h)) = Rpc.next_channel h
  /\ Rpc.promises (snd (fst (Rpc.rpc task args h))) !! Rpc.next_channel h =
       Some Rpc.Pending
  /\ Rpc.promises
       (Rpc.port1_onmessage (Rpc.next_channel h) data (snd (fst (Rpc.rpc task args h))))
       !! Rpc.next_channel h =
     Some (if Js.truthy (Js.get_prop (Rpc.error data))
           then Rpc.Rejected (Js.get_prop (Rpc.error data))
           else Rpc.Fulfilled (Js.get_prop (Rpc.result data)))
  /\ (Rpc.error data = None ->
      Rpc.promises
        (Rpc.port1_onmessage (Rpc.next_channel h) data (snd (fst (Rpc.rpc task args h))))
        !! Rpc.next_channel h =
      Some (Rpc.Fulfilled (Js.get_prop (Rpc.result data)))).
Proof.
  assert (Hp : Rpc.promises (snd (fst (Rpc.rpc task args h))) !! Rpc.next_channel h =
               Some Rpc.Pending) by (simpl; apply lookup_insert_eq).
  destruct (port1_onmessage_pending _ data _ Hp) as [Hs _].
  split; [reflexivity | split; [exact Hp | split]].
  - exact Hs.
  - intros Hnone. rewrite Hs. unfold Rpc.settled_by. rewrite Hnone. reflexivity.
Qed.

(** A reply without an [error] field. *)
Lemma rpc_reply_settles_call_witness :
  Rpc.promises
    (Rpc.port1_onmessage (Rpc.next_channel Rpc.empty_heap)
       (Rpc.Reply None (Some (Js.Num 7)))
       (snd (fst (Rpc.rpc "echo" [] Rpc.empty_heap))))
    !! Rpc.next_channel Rpc.empty_heap =
  Some (Rpc.Fulfilled (Js.get_prop (Rpc.result (Rpc.Reply None (Some (Js.Num 7)))))).
Proof.
  apply (proj2 (proj2 (proj2 (rpc_reply_settles_call
                                Rpc.empty_heap "echo" [] (Rpc.Reply None (Some (Js.Num 7))))))).
  reflexivity.
Defined.

(** * Further properties of the handlers *)

(** ** Frame counter *)

Lemma dispatch_fps_count e g :
  is_fps_tick e = false ->
  g_frames_since_last_fps_count (state_of (dispatch e g)) =
    g_frames_since_last_fps_count g + (if is_delivery e then 1 else 0).
Proof.
  intros He.
  destruct e as [[| image audio | ty] | [count | ty] | | | | node];
    try discriminate He; step_handler; lia.
Qed.

Lemma run_fps_count evs : forall g,
  forallb (fun e => negb (is_fps_tick e)) evs = true ->
  g_frames_since_last_fps_count (fst (run g evs)) =
    g_frames_since_last_fps_count g + frames_delivered evs.
Proof.
  induction evs as [| e evs IH]; intros g Hevs.
  - rewrite run_nil. unfold frames_delivered. simpl. lia.
  - simpl in Hevs. apply andb_true_iff in Hevs as [He Hevs].
    apply negb_true_iff in He.
    rewrite run_cons_state, (IH _ Hevs), (dispatch_fps_count e g He).
    unfold frames_delivered. simpl count_if. lia.
Qed.

(** X1: the figure [compute_fps] shows is the number of [deliverFrame]
    messages received since the previous report (added to what the counter
    held then), whether or not their audio was forwarded, dropped or made the
    handler throw; the report resets the counter to 0. *)
Theorem fps_report_counts_deliveries (g : globals) (evs : list event) :
  forallb (fun e => negb (is_fps_tick e)) evs = true ->
  snd (run g (evs ++ [FpsTick])) =
    snd (run g evs)
    ++ [SetFpsCounterText (g_frames_since_last_fps_count g + frames_delivered evs);
        Set_g_frames_since_last_fps_count 0]
  /\ g_frames_since_last_fps_count (fst (run g (evs ++ [FpsTick]))) = 0.
Proof.
  intros Hevs.
  rewrite run_app_log, run_app_state, run_cons_log, run_cons_state, !run_nil.
  pose proof (run_fps_count evs g Hevs) as Hcount.
  cbn [fst snd]. rewrite app_nil_r.
  unfold_handlers; cbn [fst snd g_frames_since_last_fps_count].
  rewrite Hcount. split; reflexivity.
Qed.

Lemma fps_report_counts_deliveries_witness :
  snd (run initial_globals
         ([WorkerMessage (DeliverFrame [] [1]); SchedulerTick;
           WorkerMessage (DeliverFrame [] [2])] ++ [FpsTick])) =
    snd (run initial_globals
           [WorkerMessage (DeliverFrame [] [1]); SchedulerTick;
            WorkerMessage (DeliverFrame [] [2])])
    ++ [SetFpsCounterText
          (g_frames_since_last_fps_count initial_globals
           + frames_delivered [WorkerMessage (DeliverFrame [] [1]); SchedulerTick;
                               WorkerMessage (DeliverFrame [] [2])]);
        Set_g_frames_since_last_fps_count 0]
  /\ g_frames_since_last_fps_count
       (fst (run initial_globals
               ([WorkerMessage (DeliverFrame [] [1]); SchedulerTick;
                 WorkerMessage (DeliverFrame [] [2])] ++ [FpsTick]))) = 0.
Proof.
  apply (fps_report_counts_deliveries initial_globals
           [WorkerMessage (DeliverFrame [] [1]); SchedulerTick;
            WorkerMessage (DeliverFrame [] [2])]).
  reflexivity.
Defined.

(** ** Exceptions *)

(** X2: a [deliverFrame] message handled while [g_nes_audio_node] is still
    null and the gate is open throws a TypeError, after the frame was stored,
    [g_pending_frames] decremented and the frame counted: the samples are lost
    and [g_audio_samples_buffered] is unchanged.  With the gate closed the
    node is not touched and the handler returns. *)
Theorem deliver_frame_without_audio_node
  (g : globals) (image : image_buffer) (audio : audio_buffer) :
  g_nes_audio_node g = None ->
  (g_audio_samples_buffered g < 8192 ->
     worker_onmessage (DeliverFrame image audio) g =
       (Thrown (TypeError "g_nes_audio_node is null"),
        {| g_pending_frames := g_pending_frames g - 1;
           g_frames_since_last_fps_count := g_frames_since_last_fps_count g + 1;
           g_game_pixels := Some image;
           g_audio_samples_buffered := g_audio_samples_buffered g;
           g_nes_audio_node := None |},
        [Set_g_game_pixels (Some image);
         Set_g_pending_frames (g_pending_frames g - 1);
         Set_g_frames_since_last_fps_count (g_frames_since_last_fps_count g + 1)]))
  /\ (8192 <= g_audio_samples_buffered g ->
        result_of (worker_onmessage (DeliverFrame image audio) g) = Returned tt
        /\ g_audio_samples_buffered
             (state_of (worker_onmessage (DeliverFrame image audio) g)) =
           g_audio_samples_buffered g).
Proof.
  intros Hnode. destruct g as [p f px b n]. simpl in *. subst n.
  split; intros H; unfold_handlers; simpl.
  - destruct (Z.ltb_spec b 8192); [reflexivity | lia].
  - destruct (Z.ltb_spec b 8192); [lia | split; reflexivity].
Qed.

Lemma deliver_frame_without_audio_node_witness :
  worker_onmessage (DeliverFrame [9] [1; 2]) initial_globals =
    (Thrown (TypeError "g_nes_audio_node is null"),
     {| g_pending_frames := g_pending_frames initial_globals - 1;
        g_frames_since_last_fps_count := g_frames_since_last_fps_count initial_globals + 1;
        g_game_pixels := Some [9];
        g_audio_samples_buffered := g_audio_samples_buffered initial_globals;
        g_nes_audio_node := None |},
     [Set_g_game_pixels (Some [9]);
      Set_g_pending_frames (g_pending_frames initial_globals - 1);
      Set_g_frames_since_last_fps_count
        (g_frames_since_last_fps_count initial_globals + 1)])
  /\ result_of (worker_onmessage (DeliverFrame [9] [1; 2])
                  (Globals 0 0 None 8192 None)) = Returned tt.
Proof.
  split.
  - apply (proj1 (deliver_frame_without_audio_node initial_globals [9] [1; 2] eq_refl)).
    reflexivity.
  - apply (proj2 (deliver_frame_without_audio_node
                    (Globals 0 0 None 8192 None) [9] [1; 2] eq_refl)).
    simpl. lia.
Defined.

(** X3: when the sink holds a buffer that is not 256 x 240 x 4 bytes long,
    [renderLoop] throws before drawing: nothing is presented, the sink keeps
    the buffer, and the loop does not ask for another animation frame. *)
Theorem render_loop_throws_on_malformed_frame (g : globals) (buf : image_buffer) :
  g_game_pixels g = Some buf ->
  Z.of_nat (length buf) <> frame_bytes ->
  renderLoop g = (Thrown (DOMException "ImageData: wrong buffer length"), g, []).
Proof.
  intros Hsome Hlen. unfold renderLoop, new_ImageData, bind, read.
  rewrite Hsome, Uint8ClampedArray_length.
  apply Z.eqb_neq in Hlen. rewrite Hlen. reflexivity.
Qed.

Lemma render_loop_throws_on_malformed_frame_witness :
  renderLoop (Globals 0 1 (Some [1; 2; 3; 4]) 0 None) =
    (Thrown (DOMException "ImageData: wrong buffer length"),
     Globals 0 1 (Some [1; 2; 3; 4]) 0 None, []).
Proof.
  apply (render_loop_throws_on_malformed_frame
           (Globals 0 1 (Some [1; 2; 3; 4]) 0 None) [1; 2; 3; 4]).
  - reflexivity.
  - vm_compute. discriminate.
Defined.

(** ** Audio accounting *)

Lemma total_forwarded_app t1 t2 :
  total_forwarded (t1 ++ t2) = total_forwarded t1 + total_forwarded t2.
Proof.
  induction t1 as [| e t1 IH]; simpl; [reflexivity |].
  destruct e; rewrite ?IH; lia.
Qed.

(** No handler sets [g_nes_audio_node] back to null. *)
Lemma dispatch_keeps_audio_node e g :
  g_nes_audio_node g <> None ->
  g_nes_audio_node (state_of (dispatch e g)) <> None.
Proof.
  intros Hnode. destruct g as [p f px b n]. simpl in Hnode.
  destruct n as [n |]; [| congruence].
  destruct e as [[| image audio | ty] | [count | ty] | | | | node];
    unfold_handlers; simpl;
    destruct (b <? 8192), (p <? 10), px as [buf |]; simpl;
    try destruct (Z.of_nat (length (Uint8ClampedArray buf)) =? frame_bytes); simpl; discriminate.
Qed.

Lemma run_keeps_audio_node evs : forall g,
  g_nes_audio_node g <> None ->
  g_nes_audio_node (fst (run g evs)) <> None.
Proof.
  induction evs as [| e evs IH]; intros g Hnode.
  - exact Hnode.
  - rewrite run_cons_state. apply IH, dispatch_keeps_audio_node, Hnode.
Qed.

Lemma dispatch_audio_account e g :
  g_nes_audio_node g <> None ->
  g_audio_samples_buffered (state_of (dispatch e g)) =
    g_audio_samples_buffered g + total_forwarded (log_of (dispatch e g))
    - total_played [e].
Proof.
  intros Hnode. destruct g as [p f px b n]. simpl in Hnode.
  destruct n as [n |]; [| congruence].
  destruct e as [[| image audio | ty] | [count | ty] | | | | node];
    unfold_handlers; simpl;
    destruct (b <? 8192), (p <? 10), px as [buf |]; simpl;
    try destruct (Z.of_nat (length (Uint8ClampedArray buf)) =? frame_bytes); simpl; lia.
Qed.

Lemma total_played_cons e evs :
  total_played (e :: evs) = total_played [e] + total_played evs.
Proof. destruct e as [| [count | ty] | | | |]; simpl; lia. Qed.

(** X4: once the audio node exists, and as long as the counter and the
    reported counts stay exact integers, [g_audio_samples_buffered] moves by
    exactly the samples posted to the node minus the counts the node reports:
    dropped batches are not counted, and nothing else touches the counter. *)
Theorem audio_counter_is_forwarded_minus_played (g : globals) (evs : list event) :
  g_nes_audio_node g <> None ->
  stays_exact g evs = true ->
  g_audio_samples_buffered (fst (run g evs)) =
    g_audio_samples_buffered g + total_forwarded (snd (run g evs)) - total_played evs.
Proof.
  revert g. induction evs as [| e evs IH]; intros g Hnode Hexact.
  - rewrite run_nil. simpl. lia.
  - rewrite run_cons_state, run_cons_log, total_forwarded_app, total_played_cons.
    simpl in Hexact. apply andb_true_iff in Hexact as [_ Hexact].
    apply andb_true_iff in Hexact as [_ Hexact].
    rewrite (IH _ (dispatch_keeps_audio_node e g Hnode) Hexact).
    rewrite (dispatch_audio_account e g Hnode). lia.
Qed.

Lemma audio_counter_is_forwarded_minus_played_witness :
  g_audio_samples_buffered
    (fst (run (Globals 0 0 None 8190 (Some 0%nat))
            [WorkerMessage (DeliverFrame [] [1; 2; 3]);
             WorkerMessage (DeliverFrame [] [4; 5]);
             AudioMessage (SamplesPlayed 2)])) =
  g_audio_samples_buffered (Globals 0 0 None 8190 (Some 0%nat))
  + total_forwarded
      (snd (run (Globals 0 0 None 8190 (Some 0%nat))
              [WorkerMessage (DeliverFrame [] [1; 2; 3]);
               WorkerMessage (DeliverFrame [] [4; 5]);
               AudioMessage (SamplesPlayed 2)]))
  - total_played
      [WorkerMessage (DeliverFrame [] [1; 2; 3]);
       WorkerMessage (DeliverFrame [] [4; 5]);
       AudioMessage (SamplesPlayed 2)].
Proof.
  apply (audio_counter_is_forwarded_minus_played
           (Globals 0 0 None 8190 (Some 0%nat))
           [WorkerMessage (DeliverFrame [] [1; 2; 3]);
            WorkerMessage (DeliverFrame [] [4; 5]);
            AudioMessage (SamplesPlayed 2)]).
  - simpl. discriminate.
  - vm_compute. reflexivity.
Defined.

Lemma dispatch_audio_bound bound e g :
  batch_within bound e = true ->
  count_nonneg e = true ->
  g_audio_samples_buffered g < 8192 + bound ->
  g_audio_samples_buffered (state_of (dispatch e g)) < 8192 + bound.
Proof.
  intros Hb Hc Hlt. destruct g as [p f px b n]. simpl in Hlt.
  destruct e as [[| image audio | ty] | [count | ty] | | | | node];
    simpl in Hb, Hc; try apply Z.leb_le in Hb; try apply Z.leb_le in Hc;
    unfold_handlers; simpl;
    destruct (Z.ltb_spec b 8192), (p <? 10), px as [buf |], n as [n |]; simpl;
    try destruct (Z.of_nat (length (Uint8ClampedArray buf)) =? frame_bytes); simpl; lia.
Qed.

(** X5: the gate bounds the counter.  If every delivered batch holds at most
    [bound] samples and every acknowledgment carries a non-negative count,
    [g_audio_samples_buffered] stays below [8192 + bound] once it is. *)
Theorem audio_counter_bounded (bound : Z) (g : globals) (evs : list event) :
  forallb (batch_within bound) evs = true ->
  forallb count_nonneg evs = true ->
  g_audio_samples_buffered g < 8192 + bound ->
  g_audio_samples_buffered (fst (run g evs)) < 8192 + bound.
Proof.
  revert g. induction evs as [| e evs IH]; intros g Hb Hc Hlt.
  - exact Hlt.
  - simpl in Hb, Hc.
    apply andb_true_iff in Hb as [Hb Hbs]. apply andb_true_iff in Hc as [Hc Hcs].
    rewrite run_cons_state. apply IH; try assumption.
    apply dispatch_audio_bound; assumption.
Qed.

Lemma audio_counter_bounded_witness :
  g_audio_samples_buffered
    (fst (run (Globals 0 0 None 8191 (Some 0%nat))
            [WorkerMessage (DeliverFrame [] [1; 2; 3]);
             WorkerMessage (DeliverFrame [] [4; 5; 6]);
             AudioMessage (SamplesPlayed 1);
             WorkerMessage (DeliverFrame [] [7])])) < 8192 + 3.
Proof.
  apply (audio_counter_bounded 3 (Globals 0 0 None 8191 (Some 0%nat))
           [WorkerMessage (DeliverFrame [] [1; 2; 3]);
            WorkerMessage (DeliverFrame [] [4; 5; 6]);
            AudioMessage (SamplesPlayed 1);
            WorkerMessage (DeliverFrame [] [7])]).
  - reflexivity.
  - reflexivity.
  - simpl. lia.
Defined.

(** ** Call channel, again *)

Lemma port1_onmessage_absent c data h :
  Rpc.promises h !! c = None -> Rpc.port1_onmessage c data h = h.
Proof.
  intros H. unfold Rpc.port1_onmessage, Rpc.reject, Rpc.resolve.
  destruct (Js.truthy _); rewrite H; reflexivity.
Qed.

(** X6: a call settles once.  Whatever a second message on the same port
    carries, handling it after the first changes nothing: a rejected call is
    not fulfilled later, nor a fulfilled one rejected or given another
    value. *)
Theorem rpc_second_reply_ignored (h : Rpc.heap) (c : nat) (first second : Rpc.reply) :
  Rpc.port1_onmessage c second (Rpc.port1_onmessage c first h) =
  Rpc.port1_onmessage c first h.
Proof.
  destruct (Rpc.promises h !! c) as [p |] eqn:Hp.
  - assert (Hd : p = Rpc.Pending \/ p <> Rpc.Pending)
      by (destruct p; [left; reflexivity | right; discriminate ..]).
    destruct Hd as [-> | Hset].
    + destruct (port1_onmessage_pending c first h Hp) as [Hl _].
      apply (port1_onmessage_settled c second _ _ Hl), settled_by_not_pending.
    + rewrite (port1_onmessage_settled c first h p Hp Hset).
      apply (port1_onmessage_settled c second h p Hp Hset).
  - rewrite (port1_onmessage_absent c first h Hp).
    apply (port1_onmessage_absent c second h Hp).
Qed.

(** * Properties of the page *)

Lemma host_log_app t1 t2 :
  Page.host_log (t1 ++ t2) = Page.host_log t1 ++ Page.host_log t2.
Proof.
  induction t1 as [| o t1 IH]; simpl; [reflexivity |].
  destruct o; rewrite ?IH; reflexivity.
Qed.

Lemma host_log_map_Host t : Page.host_log (map Page.Host t) = t.
Proof. induction t as [| e t IH]; simpl; [| rewrite IH]; reflexivity. Qed.

Lemma exec_cons s x xs :
  Page.exec s (x :: xs) =
  (fst (Page.exec (fst (Page.step s x)) xs),
   snd (Page.step s x) ++ snd (Page.exec (fst (Page.step s x)) xs)).
Proof.
  simpl. destruct (Page.step s x) as [s1 t1]. simpl.
  destruct (Page.exec s1 xs); reflexivity.
Qed.

Lemma exec_cons_state s x xs :
  fst (Page.exec s (x :: xs)) = fst (Page.exec (fst (Page.step s x)) xs).
Proof. rewrite exec_cons. reflexivity. Qed.

Lemma exec_cons_log s x xs :
  snd (Page.exec s (x :: xs)) =
  snd (Page.step s x) ++ snd (Page.exec (fst (Page.step s x)) xs).
Proof. rewrite exec_cons. reflexivity. Qed.

(** What running a handler on the page changes. *)
Lemma host_spec e s :
  Page.globals_of (fst (Page.host e s)) = state_of (dispatch e (Page.globals_of s))
  /\ Page.host_log (snd (Page.host e s)) = log_of (dispatch e (Page.globals_of s))
  /\ Page.heap_of (fst (Page.host e s)) = Page.heap_of s
  /\ Page.g_audio_context (fst (Page.host e s)) = Page.g_audio_context s
  /\ Page.awaiting_echo (fst (Page.host e s)) = Page.awaiting_echo s
  /\ Page.awaiting_module (fst (Page.host e s)) = Page.awaiting_module s
  /\ Page.schedule_intervals (fst (Page.host e s)) = Page.schedule_intervals s
  /\ Page.fps_intervals (fst (Page.host e s)) = Page.fps_intervals s
  /\ Page.animation_frames (fst (Page.host e s)) =
       (Page.animation_frames s
        + length (filter (fun e => Page.is_raf e = true)
                    (log_of (dispatch e (Page.globals_of s)))))%nat.
Proof.
  unfold Page.host, state_of, log_of.
  destruct (dispatch e (Page.globals_of s)) as [[r g] t]. simpl.
  rewrite host_log_map_Host. repeat split; reflexivity.
Qed.

(** Only the scheduler posts frame requests, only the render loop draws and
    re-arms itself. *)
Lemma dispatch_requests e g :
  e <> SchedulerTick -> requests_sent (log_of (dispatch e g)) = 0.
Proof.
  intros He. destruct g as [p f px b n].
  destruct e as [[| image audio | ty] | [count | ty] | | | | node];
    try congruence; unfold_handlers; simpl;
    destruct (b <? 8192), px as [buf |], n as [n |]; simpl;
    try destruct (Z.of_nat (length (Uint8ClampedArray buf)) =? frame_bytes); reflexivity.
Qed.

Lemma dispatch_no_raf e g :
  is_render e = false ->
  filter (fun e => Page.is_raf e = true) (log_of (dispatch e g)) = [].
Proof.
  intros He. destruct g as [p f px b n].
  destruct e as [[| image audio | ty] | [count | ty] | | | | node];
    try discriminate He; unfold_handlers; simpl;
    destruct (b <? 8192), (p <? 10), n as [n |]; reflexivity.
Qed.

Lemma dispatch_presents_nothing e g :
  is_render e = false -> frames_presented (log_of (dispatch e g)) = [].
Proof.
  intros He.
  destruct (dispatch_blind_to_pixels e g g He (same_but_pixels_refl g)) as (_ & H & _).
  exact H.
Qed.

(** ** Start-up order *)

Ltac on_host e s :=
  let Hg := fresh "Hg" in
  let Hl := fresh "Hl" in
  let Hsi := fresh "Hsi" in
  let Hfi := fresh "Hfi" in
  let Haf := fresh "Haf" in
  let Hae := fresh "Hae" in
  let Ham := fresh "Ham" in
  let Hc := fresh "Hc" in
  destruct (host_spec e s) as (Hg & Hl & _ & Hc & Hae & Ham & Hsi & Hfi & Haf);
  destruct (Page.host e s) as [? ?]; cbn [fst snd] in *.

Lemma step_audio_node s x :
  (g_nes_audio_node (Page.globals_of s) <> None ->
   g_nes_audio_node (Page.globals_of (fst (Page.step s x))) <> None)
  /\ (((0 < Page.schedule_intervals s)%nat -> g_nes_audio_node (Page.globals_of s) <> None) ->
      (0 < Page.schedule_intervals (fst (Page.step s x)))%nat ->
      g_nes_audio_node (Page.globals_of (fst (Page.step s x))) <> None)
  /\ (((0 < Page.schedule_intervals s)%nat -> g_nes_audio_node (Page.globals_of s) <> None) ->
      0 < requests_sent (Page.host_log (snd (Page.step s x))) ->
      g_nes_audio_node (Page.globals_of s) <> None).
Proof.
  destruct x as [data | c data | c node | c | data | | |]; unfold Page.step.
  - pose proof (dispatch_keeps_audio_node (WorkerMessage data) (Page.globals_of s)) as Hk.
    pose proof (dispatch_requests (WorkerMessage data) (Page.globals_of s)
                  ltac:(discriminate)) as Hr.
    on_host (WorkerMessage data) s.
    destruct data; cbn [fst snd Page.onready Rpc.rpc Page.globals_of
                          Page.schedule_intervals map];
      rewrite ?host_log_app; cbn [Page.host_log]; rewrite ?app_nil_r;
      rewrite ?Hg, ?Hl, ?Hsi, ?Hr; repeat split; intros; auto; lia.
  - destruct (decide (c < Rpc.next_channel (Page.heap_of s))%nat);
      [| cbn; repeat split; intros; auto; lia].
    destruct (Rpc.promises (Page.heap_of s) !! c) as [[| v | r] |];
      [| cbn; repeat split; intros; auto; lia ..].
    destruct (decide (c ∈ Page.awaiting_echo s));
      [| cbn; repeat split; intros; auto; lia].
    destruct (Rpc.promises _ !! c) as [[| v | r] |];
      cbn; repeat split; intros; auto; lia.
  - destruct (decide (c ∈ Page.awaiting_module s));
      [| cbn; repeat split; intros; auto; lia].
    destruct node as [n |]; [| cbn; repeat split; intros; auto; lia].
    unfold Page.onready_after_module, init_audio_context, assign_g_nes_audio_node.
    cbn. repeat split; intros; discriminate.
  - destruct (decide (c ∈ Page.awaiting_module s));
      cbn; repeat split; intros; auto; lia.
  - pose proof (dispatch_keeps_audio_node (AudioMessage data) (Page.globals_of s)) as Hk.
    pose proof (dispatch_requests (AudioMessage data) (Page.globals_of s)
                  ltac:(discriminate)) as Hr.
    on_host (AudioMessage data) s.
    rewrite ?Hg, ?Hl, ?Hsi, ?Hr; repeat split; intros; auto; lia.
  - destruct (Page.schedule_intervals s) as [| k] eqn:Hk0.
    + cbn. repeat split; intros; auto; lia.
    + pose proof (dispatch_keeps_audio_node SchedulerTick (Page.globals_of s)) as Hk.
      on_host SchedulerTick s.
      rewrite ?Hg, ?Hl, ?Hsi; repeat split; intros; auto;
        try (apply Hk); match goal with H : _ -> _ <> None |- _ => apply H; lia end.
  - destruct (Page.fps_intervals s) as [| k].
    + cbn. repeat split; intros; auto; lia.
    + pose proof (dispatch_keeps_audio_node FpsTick (Page.globals_of s)) as Hk.
      pose proof (dispatch_requests FpsTick (Page.globals_of s) ltac:(discriminate)) as Hr.
      on_host FpsTick s.
      rewrite ?Hg, ?Hl, ?Hsi, ?Hr; repeat split; intros; auto; lia.
  - destruct (Page.animation_frames s) as [| k].
    + cbn. repeat split; intros; auto; lia.
    + pose proof (dispatch_keeps_audio_node AnimationFrame (Page.globals_of s)) as Hk.
      pose proof (dispatch_requests AnimationFrame (Page.globals_of s)
                    ltac:(discriminate)) as Hr.
      on_host AnimationFrame (Page.take_animation_frame s).
      cbn [Page.take_animation_frame Page.globals_of Page.schedule_intervals] in *.
      rewrite ?Hg, ?Hl, ?Hsi, ?Hr; repeat split; intros; auto; lia.
Qed.

Lemma exec_audio_node xs : forall s,
  ((0 < Page.schedule_intervals s)%nat -> g_nes_audio_node (Page.globals_of s) <> None) ->
  (g_nes_audio_node (Page.globals_of s) <> None ->
   g_nes_audio_node (Page.globals_of (fst (Page.exec s xs))) <> None)
  /\ ((0 < Page.schedule_intervals (fst (Page.exec s xs)))%nat ->
      g_nes_audio_node (Page.globals_of (fst (Page.exec s xs))) <> None)
  /\ (0 < requests_sent (Page.host_log (snd (Page.exec s xs))) ->
      g_nes_audio_node (Page.globals_of (fst (Page.exec s xs))) <> None).
Proof.
  induction xs as [| x xs IH]; intros s Hinv.
  - simpl. repeat split; auto; unfold requests_sent; simpl; lia.
  - destruct (step_audio_node s x) as (Hkeep & Harm & Hreq).
    destruct (IH (fst (Page.step s x)) (Harm Hinv)) as (Hkeep' & Harm' & Hreq').
    rewrite exec_cons_state, exec_cons_log, host_log_app.
    unfold requests_sent in *. rewrite count_if_app.
    repeat split; auto.
    intros Hsent.
    destruct (Z.lt_ge_cases 0 (count_if is_request (Page.host_log (snd (Page.step s x)))))
      as [Hnow | Hnow].
    + apply Hkeep', Hkeep, Hreq; assumption.
    + apply Hreq'. assert (Hz : forall l, 0 <= count_if is_request l)
        by (induction l as [| e l IHl]; simpl; [lia | destruct (is_request e); lia]).
      pose proof (Hz (Page.host_log (snd (Page.step s x)))). lia.
Qed.

(** X7: the order of [onready] holds on the page.  From the page as loaded,
    whatever arrives and in whatever order, the scheduler timer is armed only
    once [g_nes_audio_node] is set, so a frame request is only ever sent with
    the audio node in place; from then on a [deliverFrame] message is handled
    without throwing. *)
Theorem no_frame_request_before_audio_node (xs : list Page.stimulus) :
  ((0 < Page.schedule_intervals (fst (Page.exec Page.initial xs)))%nat ->
   exists node,
     g_nes_audio_node (Page.globals_of (fst (Page.exec Page.initial xs))) = Some node)
  /\ (0 < requests_sent (Page.host_log (snd (Page.exec Page.initial xs))) ->
      (exists node,
          g_nes_audio_node (Page.globals_of (fst (Page.exec Page.initial xs))) = Some node)
      /\ forall image audio,
          result_of (worker_onmessage (DeliverFrame image audio)
                       (Page.globals_of (fst (Page.exec Page.initial xs)))) = Returned tt).
Proof.
  destruct (exec_audio_node xs Page.initial) as (_ & Harm & Hreq).
  { simpl. lia. }
  assert (Hsome : forall g, g_nes_audio_node g <> None ->
                            exists node, g_nes_audio_node g = Some node).
  { intros g Hg. destruct (g_nes_audio_node g) as [n |]; [eauto | congruence]. }
  split.
  - intros H. apply Hsome, Harm, H.
  - intros H. split; [apply Hsome, Hreq, H |].
    intros image audio. specialize (Hreq H).
    destruct (Page.globals_of (fst (Page.exec Page.initial xs))) as [p f px b n].
    simpl in Hreq. destruct n as [n |]; [| congruence].
    unfold_handlers; simpl. destruct (b <? 8192); reflexivity.
Qed.

Lemma no_frame_request_before_audio_node_witness :
  (exists node,
      g_nes_audio_node
        (Page.globals_of
           (fst (Page.exec Page.initial
                   [Page.FromWorker Init;
                    Page.OnPort 0 (Rpc.Reply None (Some (Js.Str "Hello World!")));
                    Page.ModuleLoaded 0 (Some 4%nat);
                    Page.ScheduleTimer]))) = Some node)
  /\ result_of
       (worker_onmessage (DeliverFrame [1] [2])
          (Page.globals_of
             (fst (Page.exec Page.initial
                     [Page.FromWorker Init;
                      Page.OnPort 0 (Rpc.Reply None (Some (Js.Str "Hello World!")));
                      Page.ModuleLoaded 0 (Some 4%nat);
                      Page.ScheduleTimer])))) = Returned tt.
Proof.
  pose proof (no_frame_request_before_audio_node
                [Page.FromWorker Init;
                 Page.OnPort 0 (Rpc.Reply None (Some (Js.Str "Hello World!")));
                 Page.ModuleLoaded 0 (Some 4%nat);
                 Page.ScheduleTimer]) as [Harmed Hsent].
  split.
  - apply Harmed. vm_compute. lia.
  - apply Hsent. vm_compute. reflexivity.
Defined.

(** ** A page with no start-up under way *)

Lemma dispatch_same_audio_node e g :
  (forall node, e <> AudioContextReady node) ->
  g_nes_audio_node (state_of (dispatch e g)) = g_nes_audio_node g.
Proof.
  intros He. destruct g as [p f px b n].
  destruct e as [[| image audio | ty] | [count | ty] | | | | node];
    try (exfalso; apply (He node); reflexivity); unfold_handlers; simpl;
    destruct (b <? 8192), (p <? 10), px as [buf |], n as [n |]; simpl;
    try destruct (Z.of_nat (length (Uint8ClampedArray buf)) =? frame_bytes); reflexivity.
Qed.

(** A timer or animation callback runs only if one was registered. *)
Lemma step_timers s :
  (Page.step s Page.ScheduleTimer =
     if decide (Page.schedule_intervals s = 0%nat) then (s, [])
     else Page.host SchedulerTick s)
  /\ (Page.step s Page.FpsTimer =
        if decide (Page.fps_intervals s = 0%nat) then (s, [])
        else Page.host FpsTick s)
  /\ (Page.step s Page.Frame =
        if decide (Page.animation_frames s = 0%nat) then (s, [])
        else Page.host AnimationFrame (Page.take_animation_frame s)).
Proof.
  unfold Page.step. repeat split.
  - destruct (Page.schedule_intervals s); reflexivity.
  - destruct (Page.fps_intervals s); reflexivity.
  - destruct (Page.animation_frames s); reflexivity.
Qed.

(** With no invocation of [onready] suspended and no new ["init"], nothing
    arms a timer or the render loop, and nothing creates an audio context or
    node. *)
Lemma step_settled s x :
  Page.settled_startup s ->
  Page.is_init x = false ->
  Page.settled_startup (fst (Page.step s x))
  /\ Page.schedule_intervals (fst (Page.step s x)) = Page.schedule_intervals s
  /\ Page.fps_intervals (fst (Page.step s x)) = Page.fps_intervals s
  /\ Page.g_audio_context (fst (Page.step s x)) = Page.g_audio_context s
  /\ g_nes_audio_node (Page.globals_of (fst (Page.step s x))) =
       g_nes_audio_node (Page.globals_of s)
  /\ (Page.animation_frames s = 0%nat ->
      Page.animation_frames (fst (Page.step s x)) = 0%nat
      /\ frames_presented (Page.host_log (snd (Page.step s x))) = [])
  /\ (Page.schedule_intervals s = 0%nat ->
      requests_sent (Page.host_log (snd (Page.step s x))) = 0).
Proof.
  intros [He Hm] Hx. unfold Page.settled_startup.
  assert (Hidle : Page.settled_startup s
                  /\ Page.schedule_intervals s = Page.schedule_intervals s
                  /\ Page.fps_intervals s = Page.fps_intervals s
                  /\ Page.g_audio_context s = Page.g_audio_context s
                  /\ g_nes_audio_node (Page.globals_of s) = g_nes_audio_node (Page.globals_of s)
                  /\ (Page.animation_frames s = 0%nat ->
                      Page.animation_frames s = 0%nat
                      /\ frames_presented (Page.host_log []) = [])
                  /\ (Page.schedule_intervals s = 0%nat ->
                      requests_sent (Page.host_log []) = 0)).
  { unfold Page.settled_startup. repeat split; auto. }
  assert (Hhost : forall e,
             (forall node, e <> AudioContextReady node) ->
             (is_render e = true -> Page.animation_frames s <> 0%nat) ->
             (e = SchedulerTick -> Page.schedule_intervals s <> 0%nat) ->
             forall s0, Page.globals_of s0 = Page.globals_of s ->
                        Page.awaiting_echo s0 = Page.awaiting_echo s ->
                        Page.awaiting_module s0 = Page.awaiting_module s ->
                        Page.schedule_intervals s0 = Page.schedule_intervals s ->
                        Page.fps_intervals s0 = Page.fps_intervals s ->
                        Page.g_audio_context s0 = Page.g_audio_context s ->
                        (Page.animation_frames s = 0%nat -> Page.animation_frames s0 = 0%nat) ->
             (Page.awaiting_echo (fst (Page.host e s0)) = ∅
              /\ Page.awaiting_module (fst (Page.host e s0)) = ∅)
             /\ Page.schedule_intervals (fst (Page.host e s0)) = Page.schedule_intervals s
             /\ Page.fps_intervals (fst (Page.host e s0)) = Page.fps_intervals s
             /\ Page.g_audio_context (fst (Page.host e s0)) = Page.g_audio_context s
             /\ g_nes_audio_node (Page.globals_of (fst (Page.host e s0))) =
                  g_nes_audio_node (Page.globals_of s)
             /\ (Page.animation_frames s = 0%nat ->
                 Page.animation_frames (fst (Page.host e s0)) = 0%nat
                 /\ frames_presented (Page.host_log (snd (Page.host e s0))) = [])
             /\ (Page.schedule_intervals s = 0%nat ->
                 requests_sent (Page.host_log (snd (Page.host e s0))) = 0)).
  { intros e Hnot Hrender Htick s0 Eg Ee Em Es Ef Ec Ea.
    destruct (host_spec e s0) as (Hg & Hl & _ & Hc & Hae & Ham & Hsi & Hfi & Haf).
    rewrite Hg, Hl, Hc, Hae, Ham, Hsi, Hfi, Haf, Eg, Ee, Em, Es, Ef, Ec.
    rewrite (dispatch_same_audio_node e _ Hnot).
    repeat split; auto.
    - destruct (is_render e) eqn:Hr; [exfalso; apply Hrender; auto |].
      rewrite (dispatch_no_raf e _ Hr), (Ea H). reflexivity.
    - destruct (is_render e) eqn:Hr; [exfalso; apply Hrender; auto |].
      apply dispatch_presents_nothing, Hr.
    - intros Hz. apply dispatch_requests. intros ->. apply Htick; auto. }
  destruct x as [data | c data | c node | c | data | | |].
  - unfold Page.step. destruct data as [| image audio | ty]; [discriminate Hx | |].
    + pose proof (Hhost (WorkerMessage (DeliverFrame image audio))
                    ltac:(discriminate) ltac:(discriminate) ltac:(discriminate)
                    s eq_refl eq_refl eq_refl eq_refl eq_refl eq_refl (fun H => H)) as H.
      destruct (Page.host (WorkerMessage (DeliverFrame image audio)) s) as [s1 t1].
      exact H.
    + pose proof (Hhost (WorkerMessage (OtherWorkerData ty))
                    ltac:(discriminate) ltac:(discriminate) ltac:(discriminate)
                    s eq_refl eq_refl eq_refl eq_refl eq_refl eq_refl (fun H => H)) as H.
      destruct (Page.host (WorkerMessage (OtherWorkerData ty)) s) as [s1 t1].
      exact H.
  - unfold Page.step.
    destruct (decide (c < Rpc.next_channel (Page.heap_of s))%nat); [| exact Hidle].
    destruct (decide (c ∈ Page.awaiting_echo s)) as [Hin | Hin];
      [rewrite He in Hin; set_solver |].
    destruct (Rpc.promises (Page.heap_of s) !! c) as [[| v | r] |];
      cbn; repeat split; auto.
  - unfold Page.step.
    destruct (decide (c ∈ Page.awaiting_module s)) as [Hin | Hin];
      [rewrite Hm in Hin; set_solver | exact Hidle].
  - unfold Page.step.
    destruct (decide (c ∈ Page.awaiting_module s)) as [Hin | Hin];
      [rewrite Hm in Hin; set_solver | exact Hidle].
  - unfold Page.step. apply Hhost; auto; discriminate.
  - rewrite (proj1 (step_timers s)).
    destruct (decide (Page.schedule_intervals s = 0%nat)); [exact Hidle |].
    apply Hhost; auto; discriminate.
  - rewrite (proj1 (proj2 (step_timers s))).
    destruct (decide (Page.fps_intervals s = 0%nat)); [exact Hidle |].
    apply Hhost; auto; discriminate.
  - rewrite (proj2 (proj2 (step_timers s))).
    destruct (decide (Page.animation_frames s = 0%nat)); [exact Hidle |].
    apply Hhost; auto; try discriminate. intros Hz. contradiction.
Qed.

Lemma exec_settled xs : forall s,
  Page.settled_startup s ->
  forallb (fun x => negb (Page.is_init x)) xs = true ->
  Page.settled_startup (fst (Page.exec s xs))
  /\ Page.schedule_intervals (fst (Page.exec s xs)) = Page.schedule_intervals s
  /\ Page.fps_intervals (fst (Page.exec s xs)) = Page.fps_intervals s
  /\ Page.g_audio_context (fst (Page.exec s xs)) = Page.g_audio_context s
  /\ g_nes_audio_node (Page.globals_of (fst (Page.exec s xs))) =
       g_nes_audio_node (Page.globals_of s)
  /\ (Page.animation_frames s = 0%nat ->
      Page.animation_frames (fst (Page.exec s xs)) = 0%nat
      /\ frames_presented (Page.host_log (snd (Page.exec s xs))) = [])
  /\ (Page.schedule_intervals s = 0%nat ->
      requests_sent (Page.host_log (snd (Page.exec s xs))) = 0).
Proof.
  induction xs as [| x xs IH]; intros s Hs Hxs.
  - simpl. repeat split; auto; apply Hs.
  - simpl in Hxs. apply andb_true_iff in Hxs as [Hx Hxs]. apply negb_true_iff in Hx.
    destruct (step_settled s x Hs Hx) as (Hs1 & Hsi & Hfi & Hc & Hn & Haf & Hrq).
    destruct (IH _ Hs1 Hxs) as (Hs2 & Hsi' & Hfi' & Hc' & Hn' & Haf' & Hrq').
    rewrite exec_cons_state, exec_cons_log, host_log_app, frames_presented_app.
    unfold requests_sent in *. rewrite count_if_app.
    split; [exact Hs2 |]. do 4 (split; [congruence |]). split.
    + intros Hz. destruct (Haf Hz) as [Hz1 Hp1]. destruct (Haf' Hz1) as [Hz2 Hp2].
      rewrite Hp1, Hp2. split; [exact Hz2 | reflexivity].
    + intros Hz. rewrite (Hrq Hz), Hrq' by congruence. reflexivity.
Qed.

(** The turn in which the first echo is answered. *)
Lemma echo_reply_step data :
  Page.step (fst (Page.step Page.initial (Page.FromWorker Init))) (Page.OnPort 0 data) =
  match Rpc.settled_by data with
  | Rpc.Fulfilled reply =>
      Page.onready_after_echo 0 reply
        (Page.resume_echo 0
           (Page.with_heap
              (Rpc.port1_onmessage 0 data
                 (Page.heap_of (fst (Page.step Page.initial (Page.FromWorker Init)))))
              (fst (Page.step Page.initial (Page.FromWorker Init)))))
  | _ =>
      (Page.resume_echo 0
         (Page.with_heap
            (Rpc.port1_onmessage 0 data
               (Page.heap_of (fst (Page.step Page.initial (Page.FromWorker Init)))))
            (fst (Page.step Page.initial (Page.FromWorker Init)))), [])
  end.
Proof.
  set (s1 := fst (Page.step Page.initial (Page.FromWorker Init))).
  assert (Hp : Rpc.promises (Page.heap_of s1) !! 0%nat = Some Rpc.Pending)
    by (vm_compute; reflexivity).
  unfold Page.step.
  destruct (decide (0 < Rpc.next_channel (Page.heap_of s1))%nat) as [_ | Hn];
    [| exfalso; apply Hn; vm_compute; lia].
  rewrite Hp.
  destruct (decide (0%nat ∈ Page.awaiting_echo s1)) as [_ | Hn];
    [| exfalso; apply Hn; cbn; set_solver].
  cbn [Page.with_heap Page.heap_of].
  rewrite (proj1 (port1_onmessage_pending 0 data _ Hp)).
  destruct (Rpc.settled_by data); reflexivity.
Qed.

(** X8: if the echo call made by [onready] is rejected, start-up ends there.
    Unless the worker sends ["init"] again, no audio context or node is ever
    created, no timer and no render loop is armed, no frame is requested and,
    whatever the worker delivers, nothing is drawn. *)
Theorem failed_echo_leaves_page_inert (data : Rpc.reply) (xs : list Page.stimulus) :
  Js.truthy (Js.get_prop (Rpc.error data)) = true ->
  forallb (fun x => negb (Page.is_init x)) xs = true ->
  Page.schedule_intervals
    (fst (Page.exec Page.initial (Page.FromWorker Init :: Page.OnPort 0 data :: xs))) = 0%nat
  /\ Page.fps_intervals
       (fst (Page.exec Page.initial (Page.FromWorker Init :: Page.OnPort 0 data :: xs))) = 0%nat
  /\ Page.animation_frames
       (fst (Page.exec Page.initial (Page.FromWorker Init :: Page.OnPort 0 data :: xs))) = 0%nat
  /\ Page.g_audio_context
       (fst (Page.exec Page.initial (Page.FromWorker Init :: Page.OnPort 0 data :: xs))) = None
  /\ g_nes_audio_node
       (Page.globals_of
          (fst (Page.exec Page.initial (Page.FromWorker Init :: Page.OnPort 0 data :: xs)))) = None
  /\ requests_sent
       (Page.host_log
          (snd (Page.exec Page.initial (Page.FromWorker Init :: Page.OnPort 0 data :: xs)))) = 0
  /\ frames_presented
       (Page.host_log
          (snd (Page.exec Page.initial (Page.FromWorker Init :: Page.OnPort 0 data :: xs)))) = [].
Proof.
  intros Herr Hxs.
  rewrite !exec_cons_state, !exec_cons_log, echo_reply_step.
  unfold Rpc.settled_by. rewrite Herr. cbn [fst snd].
  set (s2 := Page.resume_echo 0 _).
  assert (Hs2 : Page.settled_startup s2).
  { split; cbn; [set_solver | reflexivity]. }
  destruct (exec_settled xs s2 Hs2 Hxs) as (_ & Hsi & Hfi & Hc & Hn & Haf & Hrq).
  destruct (Haf eq_refl) as [Haf0 Hpr]. specialize (Hrq eq_refl).
  rewrite Hsi, Hfi, Haf0, Hc, Hn.
  rewrite !host_log_app, !frames_presented_app. unfold requests_sent in *.
  rewrite !count_if_app, Hrq, Hpr.
  repeat split; reflexivity.
Qed.

Lemma failed_echo_leaves_page_inert_witness :
  requests_sent
    (Page.host_log
       (snd (Page.exec Page.initial
               (Page.FromWorker Init
                  :: Page.OnPort 0 (Rpc.Reply (Some (Js.Str "no echo")) None)
                  :: [Page.ScheduleTimer; Page.FromWorker (DeliverFrame [1] [2]);
                      Page.Frame; Page.ModuleLoaded 0 (Some 3%nat);
                      Page.ScheduleTimer])))) = 0
  /\ frames_presented
       (Page.host_log
          (snd (Page.exec Page.initial
                  (Page.FromWorker Init
                     :: Page.OnPort 0 (Rpc.Reply (Some (Js.Str "no echo")) None)
                     :: [Page.ScheduleTimer; Page.FromWorker (DeliverFrame [1] [2]);
                         Page.Frame; Page.ModuleLoaded 0 (Some 3%nat);
                         Page.ScheduleTimer])))) = [].
Proof.
  pose proof (failed_echo_leaves_page_inert
                (Rpc.Reply (Some (Js.Str "no echo")) None)
                [Page.ScheduleTimer; Page.FromWorker (DeliverFrame [1] [2]);
                 Page.Frame; Page.ModuleLoaded 0 (Some 3%nat); Page.ScheduleTimer]
                eq_refl eq_refl) as H.
  split; apply H.
Defined.

(** X9: [onready] does not look at what the echo call returns.  Any reply
    that is not an error, whatever its result, is logged and start-up goes
    on: the audio context is created and, once the module is loaded and the
    node made, the node is stored, and exactly one render callback, one
    scheduler timer and one fps timer are armed, in that order. *)
Theorem startup_ignores_echo_result (data : Rpc.reply) (node : nat) :
  Js.truthy (Js.get_prop (Rpc.error data)) = false ->
  snd (Page.exec Page.initial
         [Page.FromWorker Init; Page.OnPort 0 data; Page.ModuleLoaded 0 (Some node)]) =
    [Page.Host Onready;
     Page.Posted (Rpc.PostRpc "echo" [Js.Str "Hello World!"] 0);
     Page.ConsoleLogReply (Js.get_prop (Rpc.result data));
     Page.NewAudioContext 0;
     Page.AddModule 0;
     Page.Host (Set_g_nes_audio_node node);
     Page.ConnectNode node (Some 0%nat);
     Page.AddFileLoaderListener;
     Page.Host RequestAnimationFrame;
     Page.SetIntervalSchedule;
     Page.SetIntervalFps]
  /\ Page.globals_of
       (fst (Page.exec Page.initial
               [Page.FromWorker Init; Page.OnPort 0 data; Page.ModuleLoaded 0 (Some node)])) =
     Globals 0 0 None 0 (Some node)
  /\ Page.animation_frames
       (fst (Page.exec Page.initial
               [Page.FromWorker Init; Page.OnPort 0 data; Page.ModuleLoaded 0 (Some node)])) = 1%nat
  /\ Page.schedule_intervals
       (fst (Page.exec Page.initial
               [Page.FromWorker Init; Page.OnPort 0 data; Page.ModuleLoaded 0 (Some node)])) = 1%nat
  /\ Page.fps_intervals
       (fst (Page.exec Page.initial
               [Page.FromWorker Init; Page.OnPort 0 data; Page.ModuleLoaded 0 (Some node)])) = 1%nat
  /\ Page.settled_startup
       (fst (Page.exec Page.initial
               [Page.FromWorker Init; Page.OnPort 0 data; Page.ModuleLoaded 0 (Some node)])).
Proof.
  intros Herr.
  rewrite !exec_cons_state, !exec_cons_log, echo_reply_step.
  unfold Rpc.settled_by. rewrite Herr.
  set (s2 := Page.resume_echo 0 _).
  cbn [fst snd Page.onready_after_echo Page.exec].
  set (s3 := Page.State _ _ _ _ _ _ _ _).
  assert (Hstep : Page.step s3 (Page.ModuleLoaded 0 (Some node)) =
                  Page.onready_after_module node (Page.resume_module 0 s3)).
  { unfold Page.step.
    destruct (decide (0%nat ∈ Page.awaiting_module s3)) as [_ | Hn]; [reflexivity |].
    exfalso. apply Hn. cbn. set_solver. }
  rewrite Hstep. cbn. unfold Page.settled_startup. cbn.
  repeat split; set_solver.
Qed.

Lemma startup_ignores_echo_result_witness :
  Page.schedule_intervals
    (fst (Page.exec Page.initial
            [Page.FromWorker Init;
             Page.OnPort 0 (Rpc.Reply None (Some (Js.Str "something else")));
             Page.ModuleLoaded 0 (Some 6%nat)])) = 1%nat.
Proof.
  apply (startup_ignores_echo_result
           (Rpc.Reply None (Some (Js.Str "something else"))) 6%nat).
  reflexivity.
Defined.

Lemma dispatch_render_malformed g buf :
  g_game_pixels g = Some buf ->
  Z.of_nat (length buf) <> frame_bytes ->
  state_of (dispatch AnimationFrame g) = g /\ log_of (dispatch AnimationFrame g) = [].
Proof.
  intros Hsome Hlen. unfold dispatch, renderLoop, new_ImageData, bind, read, state_of, log_of.
  rewrite Hsome, Uint8ClampedArray_length.
  apply Z.eqb_neq in Hlen. rewrite Hlen. split; reflexivity.
Qed.

(** X10: one malformed frame ends rendering for good.  On a started page
    with a single render callback armed, if the sink holds a buffer of the
    wrong length when the callback runs, the callback is spent without being
    re-armed: unless the worker sends ["init"] again, no frame delivered
    later, well-formed or not, is ever drawn. *)
Theorem malformed_frame_stops_rendering
  (s : Page.state) (buf : image_buffer) (xs : list Page.stimulus) :
  Page.settled_startup s ->
  Page.animation_frames s = 1%nat ->
  g_game_pixels (Page.globals_of s) = Some buf ->
  Z.of_nat (length buf) <> frame_bytes ->
  forallb (fun x => negb (Page.is_init x)) xs = true ->
  frames_presented (Page.host_log (snd (Page.exec s (Page.Frame :: xs)))) = []
  /\ Page.animation_frames (fst (Page.exec s (Page.Frame :: xs))) = 0%nat.
Proof.
  intros Hs Haf Hsome Hlen Hxs.
  rewrite exec_cons_state, exec_cons_log, (proj2 (proj2 (step_timers s))).
  destruct (decide (Page.animation_frames s = 0%nat)) as [Hz | _]; [congruence |].
  destruct (dispatch_render_malformed _ buf Hsome Hlen) as [Hst Hlog].
  destruct (host_spec AnimationFrame (Page.take_animation_frame s))
    as (Hg & Hl & _ & _ & Hae & Ham & _ & _ & Hfr).
  cbn [Page.take_animation_frame Page.globals_of Page.awaiting_echo
         Page.awaiting_module Page.animation_frames] in *.
  rewrite Hlog in Hl, Hfr. rewrite Haf in Hfr. cbn in Hfr.
  set (s1 := fst (Page.host AnimationFrame (Page.take_animation_frame s))) in *.
  assert (Hs1 : Page.settled_startup s1).
  { destruct Hs as [He Hm]. split; congruence. }
  destruct (exec_settled xs s1 Hs1 Hxs) as (_ & _ & _ & _ & _ & Hdead & _).
  destruct (Hdead Hfr) as [Hz Hpr].
  rewrite host_log_app, frames_presented_app, Hl, Hpr. split; [reflexivity | exact Hz].
Qed.

Lemma malformed_frame_stops_rendering_witness :
  frames_presented
    (Page.host_log
       (snd (Page.exec
               (Page.State (Globals 1 1 (Some [1; 2; 3; 4]) 0 (Some 0%nat))
                  Rpc.empty_heap (Some 0%nat) ∅ ∅ 1 1 1)
               (Page.Frame
                  :: [Page.FromWorker
                        (DeliverFrame (repeat 0 (Z.to_nat frame_bytes)) []);
                      Page.Frame])))) = []
  /\ Page.animation_frames
       (fst (Page.exec
               (Page.State (Globals 1 1 (Some [1; 2; 3; 4]) 0 (Some 0%nat))
                  Rpc.empty_heap (Some 0%nat) ∅ ∅ 1 1 1)
               (Page.Frame
                  :: [Page.FromWorker
                        (DeliverFrame (repeat 0 (Z.to_nat frame_bytes)) []);
                      Page.Frame]))) = 0%nat.
Proof.
  apply (malformed_frame_stops_rendering
           (Page.State (Globals 1 1 (Some [1; 2; 3; 4]) 0 (Some 0%nat))
              Rpc.empty_heap (Some 0%nat) ∅ ∅ 1 1 1)
           [1; 2; 3; 4]
           [Page.FromWorker (DeliverFrame (repeat 0 (Z.to_nat frame_bytes)) []);
            Page.Frame]).
  - split; reflexivity.
  - reflexivity.
  - reflexivity.
  - vm_compute. discriminate.
  - reflexivity.
Defined.

(** ** The render loop keeps itself going *)

Lemma dispatch_sink_ok e g :
  (forall image audio,
      e = WorkerMessage (DeliverFrame image audio) ->
      Z.of_nat (length image) = frame_bytes) ->
  Page.sink_ok g ->
  Page.sink_ok (state_of (dispatch e g))
  /\ length (filter (fun e => Page.is_raf e = true) (log_of (dispatch e g))) =
       (if is_render e then 1%nat else 0%nat).
Proof.
  intros Hframe Hsink. unfold Page.sink_ok in *. destruct g as [p f px b n].
  simpl in Hsink.
  destruct e as [[| image audio | ty] | [count | ty] | | | | node];
    unfold_handlers; simpl.
  1, 3-6, 8-9: destruct (b <? 8192), (p <? 10), n as [n |]; simpl;
    (split; [exact Hsink | reflexivity]).
  - specialize (Hframe image audio eq_refl).
    destruct (b <? 8192), n as [n |]; simpl;
      (split; [intros buf [= <-]; exact Hframe | reflexivity]).
  - destruct px as [buf |]; simpl.
    + rewrite Uint8ClampedArray_length, (proj2 (Z.eqb_eq _ _) (Hsink buf eq_refl)). simpl.
      split; [discriminate | reflexivity].
    + split; [discriminate | reflexivity].
Qed.

(** X11: as long as every delivered pixel buffer has the expected length,
    the render loop re-arms itself on every turn: with no start-up under way
    the number of armed render callbacks never changes, whatever arrives. *)
Theorem render_loop_stays_armed (s : Page.state) (xs : list Page.stimulus) :
  Page.settled_startup s ->
  Page.sink_ok (Page.globals_of s) ->
  forallb (fun x => negb (Page.is_init x)) xs = true ->
  forallb Page.frame_ok xs = true ->
  Page.animation_frames (fst (Page.exec s xs)) = Page.animation_frames s.
Proof.
  revert s. induction xs as [| x xs IH]; intros s Hs Hsink Hxs Hok; [reflexivity |].
  simpl in Hxs, Hok.
  apply andb_true_iff in Hxs as [Hx Hxs]. apply negb_true_iff in Hx.
  apply andb_true_iff in Hok as [Hokx Hok].
  destruct (step_settled s x Hs Hx) as (Hs1 & _).
  rewrite exec_cons_state.
  assert (Hstep : Page.sink_ok (Page.globals_of (fst (Page.step s x)))
                  /\ Page.animation_frames (fst (Page.step s x)) = Page.animation_frames s).
  { assert (Hhost : forall e s0,
               Page.globals_of s0 = Page.globals_of s ->
               (forall image audio,
                   e = WorkerMessage (DeliverFrame image audio) ->
                   Z.of_nat (length image) = frame_bytes) ->
               (Page.animation_frames s0 + (if is_render e then 1 else 0))%nat =
                 Page.animation_frames s ->
               Page.sink_ok (Page.globals_of (fst (Page.host e s0)))
               /\ Page.animation_frames (fst (Page.host e s0)) = Page.animation_frames s).
    { intros e s0 Eg Hframe Eaf.
      destruct (host_spec e s0) as (Hg & _ & _ & _ & _ & _ & _ & _ & Haf).
      rewrite Hg, Haf, Eg.
      destruct (dispatch_sink_ok e (Page.globals_of s) Hframe Hsink) as [Hk Hn].
      rewrite Hn. split; [exact Hk | exact Eaf]. }
    destruct Hs as [He Hm].
    destruct x as [data | c data | c node | c | data | | |].
    - unfold Page.step. destruct data as [| image audio | ty]; [discriminate Hx | |].
      + pose proof (Hhost (WorkerMessage (DeliverFrame image audio)) s eq_refl) as H.
        destruct (Page.host (WorkerMessage (DeliverFrame image audio)) s) as [s1 t1].
        apply H; [| simpl; lia].
        intros image' audio' [= <- <-]. simpl in Hokx. apply Z.eqb_eq, Hokx.
      + pose proof (Hhost (WorkerMessage (OtherWorkerData ty)) s eq_refl) as H.
        destruct (Page.host (WorkerMessage (OtherWorkerData ty)) s) as [s1 t1].
        apply H; [discriminate | simpl; lia].
    - unfold Page.step.
      destruct (decide (c < Rpc.next_channel (Page.heap_of s))%nat); [| split; auto].
      destruct (decide (c ∈ Page.awaiting_echo s)) as [Hin | Hin];
        [rewrite He in Hin; set_solver |].
      destruct (Rpc.promises (Page.heap_of s) !! c) as [[| v | r] |]; split; auto.
    - unfold Page.step.
      destruct (decide (c ∈ Page.awaiting_module s)) as [Hin | Hin];
        [rewrite Hm in Hin; set_solver | split; auto].
    - unfold Page.step.
      destruct (decide (c ∈ Page.awaiting_module s)) as [Hin | Hin];
        [rewrite Hm in Hin; set_solver | split; auto].
    - unfold Page.step. apply Hhost; [reflexivity | discriminate | simpl; lia].
    - rewrite (proj1 (step_timers s)).
      destruct (decide (Page.schedule_intervals s = 0%nat)); [split; auto |].
      apply Hhost; [reflexivity | discriminate | simpl; lia].
    - rewrite (proj1 (proj2 (step_timers s))).
      destruct (decide (Page.fps_intervals s = 0%nat)); [split; auto |].
      apply Hhost; [reflexivity | discriminate | simpl; lia].
    - rewrite (proj2 (proj2 (step_timers s))).
      destruct (decide (Page.animation_frames s = 0%nat)); [split; auto |].
      apply Hhost; [reflexivity | discriminate | simpl; lia]. }
  destruct Hstep as [Hsink1 Haf1].
  rewrite (IH _ Hs1 Hsink1 Hxs Hok). exact Haf1.
Qed.

Lemma render_loop_stays_armed_witness :
  Page.animation_frames
    (fst (Page.exec
            (Page.State (Globals 0 0 None 0 (Some 0%nat))
               Rpc.empty_heap (Some 0%nat) ∅ ∅ 1 1 1)
            [Page.Frame;
             Page.FromWorker (DeliverFrame (repeat 0 (Z.to_nat frame_bytes)) [1]);
             Page.Frame; Page.ScheduleTimer; Page.Frame])) =
  Page.animation_frames
    (Page.State (Globals 0 0 None 0 (Some 0%nat))
       Rpc.empty_heap (Some 0%nat) ∅ ∅ 1 1 1).
Proof.
  apply (render_loop_stays_armed
           (Page.State (Globals 0 0 None 0 (Some 0%nat))
              Rpc.empty_heap (Some 0%nat) ∅ ∅ 1 1 1)
           [Page.Frame;
            Page.FromWorker (DeliverFrame (repeat 0 (Z.to_nat frame_bytes)) [1]);
            Page.Frame; Page.ScheduleTimer; Page.Frame]).
  - split; reflexivity.
  - intros buf H. discriminate H.
  - reflexivity.
  - vm_compute. reflexivity.
Defined.

(** ** Credit returned *)

(** X12: a delivery frees one credit.  With at most 10 requests
    outstanding, the scheduler tick that follows a [deliverFrame] message
    always sends exactly one request, and the counter is back where it was. *)
Theorem delivery_frees_one_credit
  (g : globals) (image : image_buffer) (audio : audio_buffer) :
  g_pending_frames g <= 10 ->
  requests_sent
    (snd (run g [WorkerMessage (DeliverFrame image audio); SchedulerTick])) = 1
  /\ g_pending_frames
       (fst (run g [WorkerMessage (DeliverFrame image audio); SchedulerTick])) =
     g_pending_frames g.
Proof.
  intros Hle. destruct g as [p f px b n]. simpl in Hle.
  rewrite !run_cons_log, !run_cons_state, !run_nil. cbn [fst snd].
  unfold_handlers; simpl.
  destruct (b <? 8192), n as [n |]; simpl;
    (destruct (Z.ltb_spec (p - 1) 10); [| lia]); simpl;
    (split; [reflexivity | lia]).
Qed.

Lemma delivery_frees_one_credit_witness :
  requests_sent
    (snd (run (Globals 10 0 None 0 (Some 0%nat))
            [WorkerMessage (DeliverFrame [1] [2]); SchedulerTick])) = 1
  /\ g_pending_frames
       (fst (run (Globals 10 0 None 0 (Some 0%nat))
               [WorkerMessage (DeliverFrame [1] [2]); SchedulerTick])) =
     g_pending_frames (Globals 10 0 None 0 (Some 0%nat)).
Proof.
  apply (delivery_frees_one_credit (Globals 10 0 None 0 (Some 0%nat)) [1] [2]).
  simpl. lia.
Defined.
